(** * The agent catalogue service of index.js

    A shallow embedding of the three request handlers of [index.js]
    ([GET /api/agents], [GET /api/agents/:id], [POST /api/submit-agent])
    and of the part of the JavaScript runtime they touch: JSON values,
    property reads, truthiness, strict equality, exceptions with
    [try]/[catch], and the one file [agents.json].

    What is not modelled: the Express routing layer, CORS, the port, the
    console output, and interleavings of concurrent requests (every handler
    runs here from its first to its last line on one state of the disk). *)

From Stdlib Require Import List String Ascii Bool Arith Lia.
From Stdlib Require Import Floats.PrimFloat.
Import ListNotations.
Local Open Scope string_scope.
Local Open Scope list_scope.

Set Implicit Arguments.
Set Warnings "-register-all".

(* ================================================================= *)
(** ** JSON values as JavaScript sees them *)

(** A value made by [JSON.parse]. An object is the ordered list of its own
    properties (the order [JSON.stringify] prints them in); a number is an
    IEEE double, as in JavaScript. *)
Inductive json : Type :=
| JNull
| JBool (b : bool)
| JNum (x : float)
| JStr (s : string)
| JArr (elements : list json)
| JObj (properties : list (string * json)).

(** A JavaScript value in the handlers: a JSON value or [undefined]. *)
Definition value : Type := option json.
Definition undefined : value := None.

(** The first own property named [k]. *)
Fixpoint own (k : string) (ps : list (string * json)) : value :=
  match ps with
  | [] => undefined
  | (k', v) :: rest => if String.eqb k' k then Some v else own k rest
  end.

(** [o[k] = v] on own properties: an existing property keeps its place,
    a new one goes last. *)
Fixpoint define (k : string) (v : json) (ps : list (string * json))
  : list (string * json) :=
  match ps with
  | [] => [(k, v)]
  | (k', v') :: rest =>
      if String.eqb k' k then (k', v) :: rest else (k', v') :: define k v rest
  end.

(** ToBoolean. The falsy values are [undefined], [null], [false], [0], [-0],
    [NaN] and the empty string. *)
Definition truthy (v : value) : bool :=
  match v with
  | None => false
  | Some JNull => false
  | Some (JBool b) => b
  | Some (JNum x) => negb (PrimFloat.eqb x 0 || negb (PrimFloat.eqb x x))
  | Some (JStr s) => negb (String.eqb s "")
  | Some (JArr _) => true
  | Some (JObj _) => true
  end.

(** [typeof v === 'object']: true of objects, arrays and [null]. *)
Definition typeof_object (v : value) : bool :=
  match v with
  | Some JNull | Some (JArr _) | Some (JObj _) => true
  | _ => false
  end.

(** [Array.isArray(v)]. *)
Definition Array_isArray (v : json) : bool :=
  match v with JArr _ => true | _ => false end.

(** [v === s] for a string [s]: no coercion, so only a string can be equal,
    and strings are compared unit by unit. *)
Definition strict_eq_string (v : value) (s : string) : bool :=
  match v with
  | Some (JStr t) => String.eqb t s
  | _ => false
  end.

(** [v === true]. *)
Definition strict_eq_true (v : value) : bool :=
  match v with
  | Some (JBool true) => true
  | _ => false
  end.

(* ================================================================= *)
(** ** The disk, exceptions and the handler monad *)

(** The text of a file, up to what [JSON.parse] makes of it: text that
    [JSON.parse] rejects, kept as it is, or text that parses to [v]. *)
Inductive text : Type :=
| Unparsable (raw : string)
| Document (v : json).

(** [agents.json] on disk. [Unreadable] is a file whose read fails with an
    error other than ENOENT (EACCES, EISDIR, ...). *)
Inductive disk : Type :=
| Absent
| Unreadable
| Stored (t : text).

Inductive io_event : Type :=
| ReadFile
| WriteFile (t : text).

Record world : Type := World {
  agents_json : disk;
  writable : bool;            (* does [fs.writeFile] go through? *)
  cut_short : option string;  (* what a write that fails leaves, see
                                 [fs_writeFile] *)
  io_log : list io_event      (* store accesses so far, oldest first *)
}.

(** [err.code] of a failed [fs] call; the handlers only tell ENOENT from
    the rest, which [EACCES] stands for. *)
Inductive errno : Type := ENOENT | EACCES.

Inductive exn : Type :=
| SystemError (code : errno)     (* a rejected fs promise *)
| SyntaxError                    (* thrown by JSON.parse *)
| TypeError                      (* a property read on null or undefined *)
| URIError                       (* thrown by decodeURIComponent *)
| Error (message : string).      (* new Error(message) *)

Inductive outcome (A : Type) : Type :=
| Return (a : A)
| Throw (e : exn).
Arguments Return {A} a.
Arguments Throw {A} e.

(** A computation of the handlers: it runs on a world, returns or throws,
    and leaves a world. *)
Definition js (A : Type) : Type := world -> outcome A * world.

Definition ret {A} (a : A) : js A := fun w => (Return a, w).
Definition throw {A} (e : exn) : js A := fun w => (Throw e, w).
Definition bind {A B} (m : js A) (k : A -> js B) : js B :=
  fun w => match m w with
           | (Return a, w') => k a w'
           | (Throw e, w') => (Throw e, w')
           end.
Definition try_catch {A} (m : js A) (handler : exn -> js A) : js A :=
  fun w => match m w with
           | (Return a, w') => (Return a, w')
           | (Throw e, w') => handler e w'
           end.

Declare Scope js_scope.
Delimit Scope js_scope with js.
Notation "x <- m ;; k" := (bind m (fun x => k))
  (at level 100, m at next level, right associativity) : js_scope.
Notation "m ;;; k" := (bind m (fun _ => k))
  (at level 100, right associativity) : js_scope.
Notation "'try' m 'catch' e => h" := (try_catch m (fun e => h))
  (at level 100, m at level 200, e name, h at level 200) : js_scope.
Local Open Scope js_scope.

Definition log (ev : io_event) (w : world) : world :=
  World (agents_json w) (writable w) (cut_short w) (io_log w ++ [ev]).

(** [await fs.readFile(agentsFilePath, 'utf8')]. *)
Definition fs_readFile : js text :=
  fun w => match agents_json w with
           | Absent => (Throw (SystemError ENOENT), log ReadFile w)
           | Unreadable => (Throw (SystemError EACCES), log ReadFile w)
           | Stored t => (Return t, log ReadFile w)
           end.

(** What a failed [fs.writeFile] leaves. The file is opened for writing,
    which empties it, and then written: a write that fails at the open
    ([cut_short] is [None]) leaves the file as it was; one that fails after
    it leaves [raw], the part of the text that got written, short of the
    whole and maybe none. The text is that of a JSON array, which ends with
    its closing bracket, so such a part is not JSON. *)
Definition failed_write (t : text) (w : world) : world :=
  match cut_short w with
  | None => log (WriteFile t) w
  | Some raw =>
      World (Stored (Unparsable raw)) (writable w) (cut_short w)
            (io_log w ++ [WriteFile t])
  end.

(** [await fs.writeFile(agentsFilePath, t, 'utf8')]: the whole file is
    replaced, or the write fails. *)
Definition fs_writeFile (t : text) : js unit :=
  fun w => if writable w
           then (Return tt,
                 World (Stored t) true (cut_short w) (io_log w ++ [WriteFile t]))
           else (Throw (SystemError EACCES), failed_write t w).

(** [JSON.parse(data)]. *)
Definition JSON_parse (data : text) : js json :=
  match data with
  | Unparsable _ => throw SyntaxError
  | Document v => ret v
  end.

(** How [JSON.stringify] writes a number, read back by [JSON.parse]: [NaN]
    and the infinities (which [JSON.parse] makes of a literal such as
    [1e999]) are written [null], both zeros are written [0], and every other
    number is written with the digits that read back to it. *)
Definition number_as_written (x : float) : json :=
  if is_nan x || is_infinity x then JNull
  else if is_zero x then JNum 0
  else JNum x.

(** A value as [JSON.stringify] writes it, read back by [JSON.parse]:
    numbers as above at every depth, all else as it is. *)
Fixpoint as_written (v : json) : json :=
  match v with
  | JNum x => number_as_written x
  | JArr l => JArr (map as_written l)
  | JObj ps => JObj (map (fun kv => (fst kv, as_written (snd kv))) ps)
  | _ => v
  end.

(** [JSON.stringify(v, null, 2)], for a value [v] that [JSON.parse] made:
    text that parses to [as_written v]. *)
Definition JSON_stringify (v : json) : text := Document (as_written v).

(** [v.k] for [k] one of [id], [approved], [name]: a property read throws on
    [null] and [undefined]; on an object it finds the own property (no
    prototype of a JSON value has one of these names), and on an array or a
    primitive it finds nothing. *)
Definition get (v : value) (k : string) : js value :=
  match v with
  | None => throw TypeError
  | Some JNull => throw TypeError
  | Some (JObj ps) => ret (own k ps)
  | Some _ => ret undefined
  end.

(** [v.k = x] where the handler does it, on a payload that passed
    validation. Only an object gets that far (see [get]: an array has no
    [name]), so other values are left as they are. *)
Definition set (v : json) (k : string) (x : json) : json :=
  match v with
  | JObj ps => JObj (define k x ps)
  | _ => v
  end.

(** [err.code === 'ENOENT'] and [err instanceof SyntaxError]. *)
Definition code_is_ENOENT (err : exn) : bool :=
  match err with SystemError ENOENT => true | _ => false end.
Definition instanceof_SyntaxError (err : exn) : bool :=
  match err with SyntaxError => true | _ => false end.

(** [s.startsWith(p)]. *)
Fixpoint startsWith (p s : string) : bool :=
  match p, s with
  | EmptyString, _ => true
  | String a p', String b s' => Ascii.eqb a b && startsWith p' s'
  | String _ _, EmptyString => false
  end.

(** [err.message]. The message of a system error starts with its code; the
    engine words those of [SyntaxError] and [TypeError]. *)
Definition message (err : exn) : string :=
  match err with
  | SystemError ENOENT => "ENOENT: no such file or directory"
  | SystemError EACCES => "EACCES: permission denied"
  | SyntaxError => "Unexpected token in JSON"
  | TypeError => "Cannot read properties of null"
  | URIError => "URI malformed"
  | Error m => m
  end.

(** [l.find(p)] and [l.filter(p)] with a callback that may throw: the
    elements are visited in index order and the first throw ends the call. *)
Fixpoint Array_find (p : json -> js bool) (l : list json) : js value :=
  match l with
  | [] => ret undefined
  | x :: rest => b <- p x ;; if b then ret (Some x) else Array_find p rest
  end.

Fixpoint Array_filter (p : json -> js bool) (l : list json) : js (list json) :=
  match l with
  | [] => ret []
  | x :: rest =>
      b <- p x ;;
      kept <- Array_filter p rest ;;
      ret (if b then x :: kept else kept)
  end.

(** The elements of a value that passed [Array.isArray]. *)
Definition elements_of (v : json) : list json :=
  match v with JArr l => l | _ => [] end.

(* ================================================================= *)
(** ** Responses *)

Record response : Type := Response {
  status : nat;
  body : json
}.

(** [res.json(b)] and [res.status(n).json(b)]. *)
Definition res_json (b : json) : response := Response 200 b.
Definition res_status_json (n : nat) (b : json) : response := Response n b.

(** The object literal [{ message: m }]. *)
Definition msg (m : string) : json := JObj [("message", JStr m)].

(* ================================================================= *)
(** ** The three handlers *)

(** [app.get('/api/agents', ...)], lines 17-36. *)
Definition get_api_agents : js response :=
  try
    (data <- fs_readFile ;;
     agents <- JSON_parse data ;;
     approvedAgents <-
       (if Array_isArray agents
        then Array_filter
               (fun agent => a <- get (Some agent) "approved" ;;
                             ret (strict_eq_true a))
               (elements_of agents)
        else ret []) ;;
     ret (res_json (JArr approvedAgents)))
  catch err =>
    if code_is_ENOENT err then
      ret (res_json (JArr []))
    else if instanceof_SyntaxError err then
      ret (res_status_json 500 (msg "Error parsing agent data file."))
    else
      ret (res_status_json 500 (msg "Error fetching agents")).

(** [app.get('/api/agents/:id', ...)], lines 39-80, from [requestedId] on:
    the identifier after [decodeURIComponent]. *)
Definition get_api_agents_id (requestedId : string) : js response :=
  try
    (data <- fs_readFile ;;
     agents <- JSON_parse data ;;
     if negb (Array_isArray agents) then
       ret (res_status_json 500 (msg "Error reading agent data."))
     else
       agent <- Array_find
                  (fun agent =>
                     i <- get (Some agent) "id" ;;
                     if strict_eq_string i requestedId
                     then a <- get (Some agent) "approved" ;;
                          ret (strict_eq_true a)
                     else ret false)
                  (elements_of agents) ;;
       if truthy agent then
         ret (res_json (match agent with Some r => r | None => JNull end))
       else
         ret (res_status_json 404 (msg "Agent not found or not approved")))
  catch err =>
    if code_is_ENOENT err then
      ret (res_status_json 404 (msg "Agent not found"))
    else if instanceof_SyntaxError err then
      ret (res_status_json 500 (msg "Error parsing agent data file."))
    else
      ret (res_status_json 500 (msg "Error fetching agent details")).

(** [app.get('/api/agents/:id', ...)], lines 39-80, whole. Line 41 decodes
    [req.params.id] before the [try]; [decodeURIComponent] is the engine's
    and is taken as it is given: [Some s] when it returns [s], [None] when
    it throws [URIError] (on a [%] that no two hex digits follow, or on
    escapes that are not UTF-8). *)
Definition get_api_agents_id_request
    (decodeURIComponent : string -> option string) (req_params_id : string)
  : js response :=
  requestedId <- match decodeURIComponent req_params_id with
                 | Some s => ret s
                 | None => throw URIError
                 end ;;
  get_api_agents_id requestedId.

(** The validation of line 87:
    [!newAgent || typeof newAgent !== 'object' || !newAgent.name],
    with its short circuits. *)
Definition invalid_agent (newAgent : value) : js bool :=
  if negb (truthy newAgent) then ret true
  else if negb (typeof_object newAgent) then ret true
  else name <- get newAgent "name" ;; ret (negb (truthy name)).

Definition parse_failure : string :=
  "Failed to parse existing agent data. Cannot add new agent.".

(** [app.post('/api/submit-agent', ...)], lines 83-149; [req_body] is
    [req.body], [undefined] when the request carried none. *)
Definition post_api_submit_agent (req_body : value) : js response :=
  let newAgent := req_body in
  invalid <- invalid_agent newAgent ;;
  if invalid then
    ret (res_status_json 400 (msg "Invalid agent data submitted"))
  else
    let newAgent :=
      set (match newAgent with Some v => v | None => JNull end)
          "approved" (JBool false) in
    try
      (agents <-
         (try
            (data <- fs_readFile ;;
             agents <- JSON_parse data ;;
             if negb (Array_isArray agents) then ret []
             else ret (elements_of agents))
          catch readError =>
            if code_is_ENOENT readError then ret []
            else if instanceof_SyntaxError readError then
              throw (Error parse_failure)
            else throw readError) ;;
       let agents := agents ++ [newAgent] in
       (fs_writeFile (JSON_stringify (JArr agents)) ;;;
        ret (res_status_json 201
               (JObj [("message",
                       JStr "Agent submitted successfully and awaiting approval");
                      ("agent", newAgent)]))))
    catch err =>
      if startsWith "Failed to parse existing agent data" (message err) then
        ret (res_status_json 500 (msg (message err)))
      else
        ret (res_status_json 500 (msg "Error saving agent data")).

(* ================================================================= *)
(** ** The scenario of the service's description *)

Definition a1 : json :=
  JObj [("id", JStr "a1"); ("name", JStr "Foo"); ("approved", JBool true)].
Definition a2 : json :=
  JObj [("id", JStr "a2"); ("name", JStr "Bar"); ("approved", JBool false)].
Definition baz : json := JObj [("name", JStr "Baz")].

Definition on_disk (d : disk) : world := World d true None [].
Definition scenario : world := on_disk (Stored (Document (JArr [a1; a2]))).

(* ================================================================= *)
(** ** What the claims speak of *)

(** The record's [approved] field is the boolean [true]. *)
Definition approved (r : json) : bool :=
  match r with
  | JObj ps => match own "approved" ps with
               | Some (JBool true) => true
               | _ => false
               end
  | _ => false
  end.

(** The record's [id] field is the string [i], unit for unit. *)
Definition has_id (i : string) (r : json) : bool :=
  match r with
  | JObj ps => match own "id" ps with
               | Some (JStr s) => String.eqb s i
               | _ => false
               end
  | _ => false
  end.

(** A payload that gets through line 87: an object whose [name] is truthy. *)
Definition valid_payload (payload : value) : bool :=
  match payload with
  | Some (JObj ps) => truthy (own "name" ps)
  | _ => false
  end.

(** The record a valid payload becomes at line 92. *)
Definition prepared (ps : list (string * json)) : json :=
  JObj (define "approved" (JBool false) ps).

(** The sequence the submit handler works on, lines 100-123. *)
Definition loaded (d : disk) : list json :=
  match d with
  | Stored (Document (JArr l)) => l
  | _ => []
  end.

(** The answers of lines 138, 65, 146 and 30/74. *)
Definition created (r : json) : response :=
  res_status_json 201
    (JObj [("message", JStr "Agent submitted successfully and awaiting approval");
           ("agent", r)]).

Definition not_found : response :=
  res_status_json 404 (msg "Agent not found or not approved").

(** The field [k] of a record. *)
Definition field (k : string) (r : json) : value :=
  match r with
  | JObj ps => own k ps
  | _ => undefined
  end.

Definition save_failed : response :=
  res_status_json 500 (msg "Error saving agent data").

Definition parse_error : response :=
  res_status_json 500 (msg "Error parsing agent data file.").

(** The callbacks of lines 22 and 54-58, named. *)
Definition approved_callback (agent : json) : js bool :=
  a <- get (Some agent) "approved" ;; ret (strict_eq_true a).

Definition match_callback (requestedId : string) (agent : json) : js bool :=
  i <- get (Some agent) "id" ;;
  if strict_eq_string i requestedId
  then a <- get (Some agent) "approved" ;; ret (strict_eq_true a)
  else ret false.

(** The payloads the validation is said to refuse: no body, [null], an
    array, a primitive, an object without [name], an object whose [name] is
    the empty string. *)
Inductive refused : value -> Prop :=
| refused_undefined : refused undefined
| refused_null : refused (Some JNull)
| refused_array l : refused (Some (JArr l))
| refused_boolean b : refused (Some (JBool b))
| refused_number x : refused (Some (JNum x))
| refused_string s : refused (Some (JStr s))
| refused_nameless ps : own "name" ps = None -> refused (Some (JObj ps))
| refused_empty_name ps :
    own "name" ps = Some (JStr "") -> refused (Some (JObj ps)).

(** Worlds and payloads the statements below are run on. *)
Definition truncated : world := on_disk (Stored (Unparsable "[{")).

Definition not_an_array : world :=
  on_disk (Stored (Document (JObj [("agents", JArr [a1])]))).

Definition self_approving : json :=
  JObj [("name", JStr "Baz"); ("approved", JBool true)].

Definition approved_by_string : list (string * json) :=
  [("id", JStr "a3"); ("name", JStr "Qux"); ("approved", JStr "true")].
Definition approved_by_number : list (string * json) :=
  [("id", JStr "a4"); ("name", JStr "Quux"); ("approved", JNum 1)].

(** Runs a handler up to its read of the file, given what is on disk. *)
Ltac run_handler h H :=
  unfold h, try_catch, bind, fs_readFile; rewrite H; simpl.

(** [v === null], as a test on elements. *)
Definition is_null (v : json) : bool :=
  match v with JNull => true | _ => false end.




(** Requests to the submit handler served one after the other, each from
    its first line to its answer; the answers in the order of the requests. *)
Fixpoint submit_each (payloads : list value) (w : world)
  : list (outcome response) * world :=
  match payloads with
  | [] => ([], w)
  | p :: rest =>
      let (answer, w') := post_api_submit_agent p w in
      let (answers, w'') := submit_each rest w' in
      (answer :: answers, w'')
  end.

Definition fetch_failed : response :=
  res_status_json 500 (msg "Error fetching agents").

Definition fetch_details_failed : response :=
  res_status_json 500 (msg "Error fetching agent details").

(** A store with a [null] among its records, and a file no read gets. *)
Definition holed : world := on_disk (Stored (Document (JArr [a2; a1; JNull]))).
Definition locked : world := on_disk Unreadable.
Definition read_only : world :=
  World (Stored (Document (JArr [a1; a2]))) false None [].

(** A disk that fills up while the file is being written. *)
Definition disk_full : world :=
  World (Stored (Document (JArr [a1; a2]))) false (Some "[") [].

(** A value every number of which is finite and not a zero. *)
Fixpoint steady (v : json) : bool :=
  match v with
  | JNum x => negb (is_nan x || is_infinity x) && negb (is_zero x)
  | JArr l => forallb steady l
  | JObj ps => forallb (fun kv => steady (snd kv)) ps
  | _ => true
  end.

(** A payload and a stored record with a number past the largest double,
    as [JSON.parse] makes of [1e999]. *)
Definition overflowing : list (string * json) :=
  [("name", JNum infinity); ("approved", JBool false)].
Definition a5 : json :=
  JObj [("id", JStr "a5"); ("score", JNum infinity); ("approved", JBool true)].

(** A payload that claims the [id] of a stored record and its own approval. *)
Definition impostor : json :=
  JObj [("id", JStr "a2"); ("name", JStr "Bar"); ("approved", JBool true)].

(* ================================================================= *)
(** ** The scenario, run *)

Example scenario_list :
  fst (get_api_agents scenario) = Return (res_json (JArr [a1])).
Proof. reflexivity. Qed.

Example scenario_get_a2 :
  fst (get_api_agents_id "a2" scenario)
  = Return (res_status_json 404 (msg "Agent not found or not approved")).
Proof. reflexivity. Qed.

Example scenario_submit :
  let (r, w) := post_api_submit_agent (Some baz) scenario in
  (exists b, r = Return (Response 201 b)
             /\ field "agent" b
                = Some (JObj [("name", JStr "Baz"); ("approved", JBool false)]))
  /\ agents_json w
     = Stored (Document (JArr [a1; a2;
                               JObj [("name", JStr "Baz");
                                     ("approved", JBool false)]])).
Proof. vm_compute. split; [eexists; split; reflexivity | reflexivity]. Qed.

(* ================================================================= *)
(** ** Own properties *)

Lemma own_define_same k v ps : own k (define k v ps) = Some v.
Proof.
  induction ps as [|[k' v'] rest IH]; simpl.
  - now rewrite String.eqb_refl.
  - destruct (String.eqb k' k) eqn:E; simpl; rewrite E; auto.
Qed.

Lemma own_define_other k k' v ps :
  k' <> k -> own k' (define k v ps) = own k' ps.
Proof.
  intros Hne. induction ps as [|[k0 v0] rest IH]; simpl.
  - destruct (String.eqb k k') eqn:E; auto.
    apply String.eqb_eq in E. congruence.
  - destruct (String.eqb k0 k) eqn:E; simpl.
    + apply String.eqb_eq in E. subst k0.
      destruct (String.eqb k k') eqn:E'; auto.
      apply String.eqb_eq in E'. congruence.
    + now rewrite IH.
Qed.

Lemma prepared_not_approved ps : approved (prepared ps) = false.
Proof. unfold approved, prepared. now rewrite own_define_same. Qed.

(* ================================================================= *)
(** ** The callbacks of [filter] and [find] on arrays without [null] *)

Lemma approved_callback_spec agent w :
  agent <> JNull -> approved_callback agent w = (Return (approved agent), w).
Proof.
  intros Hnn. destruct agent; congruence || reflexivity.
Qed.

Lemma match_callback_spec i agent w :
  agent <> JNull ->
  match_callback i agent w = (Return (has_id i agent && approved agent), w).
Proof.
  intros Hnn. destruct agent; try congruence; try reflexivity.
  unfold match_callback, bind, get, ret, has_id, approved; simpl.
  destruct (own "id" properties) as [[| | | s | |]|]; simpl; try reflexivity.
  destruct (String.eqb s i); simpl; [|reflexivity].
  destruct (own "approved" properties) as [[| [|] | | | |]|]; reflexivity.
Qed.

Lemma callback_null_throws i w :
  approved_callback JNull w = (Throw TypeError, w)
  /\ match_callback i JNull w = (Throw TypeError, w).
Proof. split; reflexivity. Qed.

Lemma Array_filter_spec l w :
  ~ In JNull l ->
  Array_filter approved_callback l w = (Return (filter approved l), w).
Proof.
  induction l as [|x rest IH]; intros Hnn; simpl.
  - reflexivity.
  - unfold bind at 1. rewrite approved_callback_spec.
    + unfold bind. rewrite IH.
      * unfold ret. now destruct (approved x).
      * intros Hin. apply Hnn. now right.
    + intros ->. apply Hnn. now left.
Qed.

Lemma Array_find_spec i l w :
  ~ In JNull l ->
  Array_find (match_callback i) l w
  = (Return (find (fun r => has_id i r && approved r) l), w).
Proof.
  induction l as [|x rest IH]; intros Hnn; simpl.
  - reflexivity.
  - unfold bind. rewrite match_callback_spec.
    + destruct (has_id i x && approved x); [reflexivity|].
      apply IH. intros Hin. apply Hnn. now right.
    + intros ->. apply Hnn. now left.
Qed.

Lemma Array_filter_throws l w :
  In JNull l -> Array_filter approved_callback l w = (Throw TypeError, w).
Proof.
  induction l as [|x rest IH]; intros Hin; [destruct Hin|].
  simpl. unfold bind at 1.
  assert (Hx : x = JNull \/ x <> JNull) by (destruct x; auto; right; discriminate).
  destruct Hx as [->|Hx]; [reflexivity|].
  rewrite approved_callback_spec by assumption.
  destruct Hin as [->|Hin]; [congruence|].
  unfold bind. now rewrite IH.
Qed.

(** The first element that satisfies [p], with what comes before it. *)
Lemma find_first {A} (p : A -> bool) l r :
  find p l = Some r ->
  exists before after,
    l = before ++ r :: after /\ p r = true
    /\ forall x, In x before -> p x = false.
Proof.
  induction l as [|x rest IH]; simpl; [discriminate|].
  destruct (p x) eqn:E.
  - intros [= ->]. exists [], rest. repeat split; auto. intros ? [].
  - intros H. destruct (IH H) as (b & a & -> & Hr & Hb).
    exists (x :: b), a. repeat split; auto.
    intros y [<-|Hy]; auto.
Qed.

(** What [find] returns on these arrays is truthy: only an object has an
    [id]. *)
Lemma match_is_truthy i r : has_id i r && approved r = true -> truthy (Some r) = true.
Proof. destruct r; simpl; auto; discriminate. Qed.

(* ================================================================= *)
(** ** Each handler, by what is on disk *)

Lemma list_on_array S w :
  agents_json w = Stored (Document (JArr S)) ->
  ~ In JNull S ->
  get_api_agents w = (Return (res_json (JArr (filter approved S))), log ReadFile w).
Proof.
  intros H Hnn. run_handler get_api_agents H.
  change (Array_filter _ S) with (Array_filter approved_callback S).
  now rewrite Array_filter_spec.
Qed.

Lemma get_on_array S i w :
  agents_json w = Stored (Document (JArr S)) ->
  ~ In JNull S ->
  get_api_agents_id i w
  = (Return (match find (fun r => has_id i r && approved r) S with
             | Some r => res_json r
             | None => not_found
             end),
     log ReadFile w).
Proof.
  intros H Hnn. run_handler get_api_agents_id H.
  change (Array_find _ S) with (Array_find (match_callback i) S).
  rewrite Array_find_spec by assumption.
  destruct (find _ S) as [r|] eqn:E; [|reflexivity].
  apply find_some in E. destruct E as [_ E].
  now rewrite (match_is_truthy _ _ E).
Qed.

(** An array with a [null] in it stops [filter] at the [null]. *)
Lemma list_on_array_with_null S w :
  agents_json w = Stored (Document (JArr S)) ->
  In JNull S ->
  get_api_agents w
  = (Return (res_status_json 500 (msg "Error fetching agents")), log ReadFile w).
Proof.
  intros H Hin. run_handler get_api_agents H.
  change (Array_filter _ S) with (Array_filter approved_callback S).
  now rewrite Array_filter_throws.
Qed.

Lemma invalid_agent_spec payload w :
  invalid_agent payload w = (Return (negb (valid_payload payload)), w).
Proof.
  destruct payload as [[| b | x | s | l | ps]|]; try reflexivity.
  - now destruct b.
  - unfold invalid_agent. now destruct (truthy (Some (JNum x))).
  - unfold invalid_agent. now destruct (truthy (Some (JStr s))).
Qed.

Lemma submit_invalid payload w :
  valid_payload payload = false ->
  post_api_submit_agent payload w
  = (Return (res_status_json 400 (msg "Invalid agent data submitted")), w).
Proof.
  intros H. unfold post_api_submit_agent, bind at 1.
  now rewrite invalid_agent_spec, H.
Qed.

Lemma submit_valid ps w :
  truthy (own "name" ps) = true ->
  post_api_submit_agent (Some (JObj ps)) w
  = match agents_json w with
    | Unreadable => (Return save_failed, log ReadFile w)
    | Stored (Unparsable _) =>
        (Return (res_status_json 500 (msg parse_failure)), log ReadFile w)
    | d =>
        let t := Document (JArr (map as_written (loaded d)
                                   ++ [as_written (prepared ps)])) in
        if writable w
        then (Return (created (prepared ps)),
              World (Stored t) true (cut_short w)
                    ((io_log w ++ [ReadFile]) ++ [WriteFile t]))
        else (Return save_failed, failed_write t (log ReadFile w))
    end.
Proof.
  intros Hname. unfold post_api_submit_agent, bind at 1.
  rewrite invalid_agent_spec. unfold valid_payload. rewrite Hname.
  cbn [negb]. unfold try_catch, bind, fs_readFile, fs_writeFile.
  destruct (agents_json w) as [| |[raw|v]] eqn:E; simpl.
  - destruct (writable w); reflexivity.
  - reflexivity.
  - reflexivity.
  - destruct v; simpl; destruct (writable w);
      unfold JSON_stringify; cbn [as_written]; rewrite ?map_app; reflexivity.
Qed.

Lemma null_in_dec (l : list json) : In JNull l \/ ~ In JNull l.
Proof.
  induction l as [|x rest [IH|IH]]; [right; intros [] | left; now right |].
  destruct x; try (right; intros [H|H]; [discriminate | contradiction]).
  left. now left.
Qed.

Lemma find_skip {A} (p : A -> bool) before r after :
  p r = false -> find p (before ++ r :: after) = find p (before ++ after).
Proof.
  intros Hr. induction before as [|x rest IH]; simpl.
  - now rewrite Hr.
  - now rewrite IH.
Qed.

Lemma filter_skip {A} (p : A -> bool) before r after :
  p r = false -> filter p (before ++ r :: after) = filter p (before ++ after).
Proof.
  intros Hr. rewrite !filter_app. simpl. now rewrite Hr.
Qed.

Lemma not_in_app_cons (before after : list json) r :
  r <> JNull -> ~ In JNull before -> ~ In JNull after ->
  ~ In JNull (before ++ r :: after).
Proof.
  intros Hr Hb Ha Hin. apply in_app_or in Hin.
  destruct Hin as [Hin|[Heq|Hin]]; auto.
Qed.

Lemma passes_validation payload w :
  invalid_agent payload w = (Return false, w) ->
  exists ps, payload = Some (JObj ps) /\ truthy (own "name" ps) = true.
Proof.
  rewrite invalid_agent_spec. intros [= Hv]. apply negb_false_iff in Hv.
  destruct payload as [[| | | | |ps]|]; try discriminate Hv.
  now exists ps.
Qed.

(** A submission answered 201, in full. *)
Lemma submit_success payload w resp w' :
  post_api_submit_agent payload w = (Return resp, w') ->
  status resp = 201 ->
  exists ps,
    payload = Some (JObj ps)
    /\ truthy (own "name" ps) = true
    /\ writable w = true
    /\ agents_json w <> Unreadable
    /\ (forall raw, agents_json w <> Stored (Unparsable raw))
    /\ resp = created (prepared ps)
    /\ agents_json w'
       = Stored (Document (JArr (map as_written (loaded (agents_json w))
                                   ++ [as_written (prepared ps)])))
    /\ writable w' = true.
Proof.
  intros Hrun Hst.
  destruct (valid_payload payload) eqn:Hv.
  - destruct payload as [[| | | | |ps]|]; try discriminate Hv.
    simpl in Hv. exists ps. rewrite (submit_valid _ w Hv) in Hrun.
    destruct (agents_json w) as [| |[raw|v]];
      try (injection Hrun as <- <-; discriminate Hst);
      (destruct (writable w);
       [injection Hrun as <- <-; repeat split;
        assumption || reflexivity || (intros; discriminate)
       |injection Hrun as <- <-; discriminate Hst]).
  - rewrite (submit_invalid _ w Hv) in Hrun.
    injection Hrun as <- <-. discriminate Hst.
Qed.

(** A valid submission on a world where the read and the write go through. *)
Lemma submit_valid_ok ps w :
  truthy (own "name" ps) = true ->
  writable w = true ->
  agents_json w <> Unreadable ->
  (forall raw, agents_json w <> Stored (Unparsable raw)) ->
  post_api_submit_agent (Some (JObj ps)) w
  = (Return (created (prepared ps)),
     World (Stored (Document (JArr (map as_written (loaded (agents_json w))
                                      ++ [as_written (prepared ps)]))))
           true (cut_short w)
           ((io_log w ++ [ReadFile])
              ++ [WriteFile (Document (JArr (map as_written (loaded (agents_json w))
                                               ++ [as_written (prepared ps)])))])).
Proof.
  intros Hname Hw Hr Hp. rewrite (submit_valid _ w Hname), Hw.
  destruct (agents_json w) as [| |[raw|v]]; try reflexivity.
  - congruence.
  - now contradiction (Hp raw).
Qed.

(* ================================================================= *)
(** ** Values as they are written *)

Lemma number_as_written_twice x :
  as_written (number_as_written x) = number_as_written x.
Proof.
  unfold number_as_written.
  destruct (is_nan x || is_infinity x) eqn:E; [reflexivity|].
  destruct (is_zero x) eqn:Z; [reflexivity|].
  simpl. unfold number_as_written. now rewrite E, Z.
Qed.

(** Writing what was read from a written file changes nothing more. *)
Lemma as_written_twice : forall v, as_written (as_written v) = as_written v.
Proof.
  fix IH 1. intros [| b | x | s | l | ps]; try reflexivity.
  - apply number_as_written_twice.
  - simpl. f_equal. induction l as [|a l IHl]; [reflexivity|].
    simpl. now rewrite IH, IHl.
  - simpl. f_equal. induction ps as [|[k v] ps IHps]; [reflexivity|].
    simpl. now rewrite IH, IHps.
Qed.

(** A value whose numbers are finite and not zero is written as it is. *)
Lemma as_written_steady : forall v, steady v = true -> as_written v = v.
Proof.
  fix IH 1. intros [| b | x | s | l | ps]; try reflexivity.
  - simpl. unfold number_as_written. intros H.
    apply andb_prop in H. destruct H as [H1 H2].
    apply negb_true_iff in H1. apply negb_true_iff in H2.
    now rewrite H1, H2.
  - simpl. intros H. f_equal. induction l as [|a l IHl]; [reflexivity|].
    simpl in H. apply andb_prop in H. destruct H as [Ha Hl].
    simpl. now rewrite (IH a Ha), (IHl Hl).
  - simpl. intros H. f_equal. induction ps as [|[k v] ps IHps]; [reflexivity|].
    simpl in H. apply andb_prop in H. destruct H as [Hv Hps].
    simpl. now rewrite (IH v Hv), (IHps Hps).
Qed.

Lemma map_as_written_twice l :
  map as_written (map as_written l) = map as_written l.
Proof.
  rewrite map_map. apply map_ext. intros v. apply as_written_twice.
Qed.

Lemma own_as_written k ps :
  own k (map (fun kv => (fst kv, as_written (snd kv))) ps)
  = option_map as_written (own k ps).
Proof.
  induction ps as [|[k' v] rest IH]; [reflexivity|].
  simpl. destruct (String.eqb k' k); [reflexivity | exact IH].
Qed.

Lemma number_as_written_cases x :
  number_as_written x = JNull \/ exists y, number_as_written x = JNum y.
Proof.
  unfold number_as_written.
  destruct (is_nan x || is_infinity x); [now left|].
  destruct (is_zero x); right; eexists; reflexivity.
Qed.

Lemma strict_eq_true_as_written v :
  strict_eq_true (option_map as_written v) = strict_eq_true v.
Proof.
  destruct v as [[| b | x | s | l | ps]|]; try reflexivity.
  simpl. destruct (number_as_written_cases x) as [->|(y & ->)]; reflexivity.
Qed.

Lemma strict_eq_string_as_written v i :
  strict_eq_string (option_map as_written v) i = strict_eq_string v i.
Proof.
  destruct v as [[| b | x | s | l | ps]|]; try reflexivity.
  simpl. destruct (number_as_written_cases x) as [->|(y & ->)]; reflexivity.
Qed.

(** Writing a record neither gives nor takes its approval or its [id]. *)
Lemma approved_as_written r : approved (as_written r) = approved r.
Proof.
  destruct r as [| b | x | s | l | ps]; try reflexivity.
  - simpl. destruct (number_as_written_cases x) as [->|(y & ->)]; reflexivity.
  - simpl. rewrite own_as_written.
    apply (strict_eq_true_as_written (own "approved" ps)).
Qed.

Lemma has_id_as_written i r : has_id i (as_written r) = has_id i r.
Proof.
  destruct r as [| b | x | s | l | ps]; try reflexivity.
  - simpl. destruct (number_as_written_cases x) as [->|(y & ->)]; reflexivity.
  - simpl. rewrite own_as_written.
    apply (strict_eq_string_as_written (own "id" ps) i).
Qed.

Lemma filter_as_written l :
  filter approved (map as_written l) = map as_written (filter approved l).
Proof.
  induction l as [|x rest IH]; [reflexivity|].
  cbn [map filter]. rewrite approved_as_written, IH.
  now destruct (approved x).
Qed.

Lemma find_as_written i l :
  find (fun r => has_id i r && approved r) (map as_written l)
  = option_map as_written (find (fun r => has_id i r && approved r) l).
Proof.
  induction l as [|x rest IH]; [reflexivity|].
  cbn [map find]. rewrite has_id_as_written, approved_as_written, IH.
  now destruct (has_id i x && approved x).
Qed.

Lemma stored_record_unapproved ps :
  field "approved" (as_written (prepared ps)) = Some (JBool false)
  /\ approved (as_written (prepared ps)) = false.
Proof.
  split.
  - unfold prepared. cbn [as_written field].
    now rewrite own_as_written, own_define_same.
  - now rewrite approved_as_written, prepared_not_approved.
Qed.

Lemma steady_define k v ps :
  steady v = true ->
  forallb (fun kv => steady (snd kv)) ps = true ->
  forallb (fun kv => steady (snd kv)) (define k v ps) = true.
Proof.
  intros Hv. induction ps as [|[k' v'] rest IH]; cbn [define forallb snd].
  - intros _. now rewrite Hv.
  - intros H. apply andb_prop in H. destruct H as [H1 H2].
    destruct (String.eqb k' k); cbn [forallb snd].
    + now rewrite Hv, H2.
    + now rewrite H1, IH.
Qed.

(** A steady payload is stored exactly as prepared. *)
Lemma as_written_prepared_steady ps :
  steady (JObj ps) = true -> as_written (prepared ps) = prepared ps.
Proof.
  intros H. apply as_written_steady. unfold prepared. cbn [steady].
  now apply steady_define.
Qed.

Lemma as_written_null_free l :
  ~ In JNull (map as_written l) -> ~ In JNull l.
Proof.
  intros H Hin. apply H. change JNull with (as_written JNull).
  now apply in_map.
Qed.

(* ================================================================= *)
(** ** The claims *)

(** C1. On a store S (a JSON array, none of whose elements is [null]) and
    any identifier i, the lookup answers with a record exactly when S holds
    a record whose [id] is the string i and whose [approved] is [true]; the
    record it answers with is the first such record of S; and when there is
    none it answers the one not-found response, the same whether some
    record has that [id] unapproved or no record has it. *)
Theorem get_by_id_first_approved_match S i w :
  agents_json w = Stored (Document (JArr S)) ->
  ~ In JNull S ->
  exists resp,
    get_api_agents_id i w = (Return resp, log ReadFile w)
    /\ ((exists r, In r S /\ has_id i r = true /\ approved r = true)
        <-> (exists r, resp = res_json r))
    /\ (forall r, resp = res_json r ->
          exists before after,
            S = before ++ r :: after
            /\ has_id i r = true /\ approved r = true
            /\ forall x, In x before -> has_id i x && approved x = false)
    /\ (~ (exists r, In r S /\ has_id i r = true /\ approved r = true) ->
        resp = not_found).
Proof.
  intros H Hnn. eexists. split; [apply get_on_array; eassumption|].
  destruct (find _ S) as [r0|] eqn:E.
  - destruct (find_first _ _ E) as (b & a & HS & Hr & Hb).
    apply andb_prop in Hr. destruct Hr as [Hid Hap].
    assert (Hin : In r0 S) by (subst S; apply in_elt).
    repeat split.
    + intros _. now exists r0.
    + intros _. now exists r0.
    + intros r [= <-]. now exists b, a.
    + intros Hno. exfalso. apply Hno. now exists r0.
  - repeat split.
    + intros (r & Hin & Hid & Hap).
      pose proof (find_none _ _ E _ Hin) as Hf. simpl in Hf.
      rewrite Hid, Hap in Hf. discriminate.
    + intros (r & Hr). discriminate.
    + intros r Hr. discriminate.
Qed.

Lemma get_by_id_first_approved_match_witness :
  exists resp,
    get_api_agents_id "a1" scenario = (Return resp, log ReadFile scenario)
    /\ ((exists r, In r [a1; a2] /\ has_id "a1" r = true /\ approved r = true)
        <-> (exists r, resp = res_json r))
    /\ (forall r, resp = res_json r ->
          exists before after,
            [a1; a2] = before ++ r :: after
            /\ has_id "a1" r = true /\ approved r = true
            /\ forall x, In x before -> has_id "a1" x && approved x = false)
    /\ (~ (exists r, In r [a1; a2] /\ has_id "a1" r = true /\ approved r = true) ->
        resp = not_found).
Proof.
  apply (@get_by_id_first_approved_match [a1; a2] "a1" scenario).
  - reflexivity.
  - simpl. intros [H|[H|[]]]; discriminate H.
Defined.

(** C2. On a store S (a JSON array, none of whose elements is [null]) the
    listing answers with exactly the records of S whose [approved] is
    [true], in the order S has them. *)
Theorem list_is_approved_subsequence S w :
  agents_json w = Stored (Document (JArr S)) ->
  ~ In JNull S ->
  get_api_agents w
  = (Return (res_json (JArr (filter approved S))), log ReadFile w).
Proof.
  intros H Hnn. run_handler get_api_agents H.
  change (Array_filter _ S) with (Array_filter approved_callback S).
  rewrite Array_filter_spec by exact Hnn.
  reflexivity.
Qed.

Lemma list_is_approved_subsequence_witness :
  get_api_agents scenario
  = (Return (res_json (JArr (filter approved [a1; a2]))), log ReadFile scenario).
Proof.
  apply (@list_is_approved_subsequence [a1; a2] scenario).
  - reflexivity.
  - simpl. intros [H|[H|[]]]; discriminate H.
Defined.

(** C3. A payload that passes the validation of the submit handler is an
    object, and the record made of it has [approved] equal to the boolean
    [false] whatever [approved] the client sent, its other fields being the
    client's. When the file can be read (or is missing) and written, the
    handler answers 201 echoing that record, and the file then ends with
    that record as written, [approved] still the boolean [false]; and
    whenever the handler answers 201 that is the record it echoes and the
    record it stored. *)
Theorem submit_forces_unapproved payload w :
  invalid_agent payload w = (Return false, w) ->
  exists ps,
    payload = Some (JObj ps)
    /\ field "approved" (prepared ps) = Some (JBool false)
    /\ field "approved" (as_written (prepared ps)) = Some (JBool false)
    /\ (forall k, k <> "approved" -> field k (prepared ps) = own k ps)
    /\ (writable w = true ->
        agents_json w <> Unreadable ->
        (forall raw, agents_json w <> Stored (Unparsable raw)) ->
        exists w',
          post_api_submit_agent payload w = (Return (created (prepared ps)), w')
          /\ field "agent" (body (created (prepared ps))) = Some (prepared ps)
          /\ agents_json w'
             = Stored (Document (JArr (map as_written (loaded (agents_json w))
                                         ++ [as_written (prepared ps)]))))
    /\ (forall resp w',
          post_api_submit_agent payload w = (Return resp, w') ->
          status resp = 201 ->
          resp = created (prepared ps)
          /\ agents_json w'
             = Stored (Document (JArr (map as_written (loaded (agents_json w))
                                         ++ [as_written (prepared ps)])))).
Proof.
  intros Hv. destruct (passes_validation _ Hv) as (ps & -> & Hname).
  exists ps. split; [reflexivity|]. split; [apply own_define_same|].
  split; [apply stored_record_unapproved|].
  split; [intros k Hk; now apply own_define_other|]. split.
  - intros Hw Hr Hp. rewrite (@submit_valid_ok ps w Hname Hw Hr Hp).
    eexists. split; [reflexivity|]. split; reflexivity.
  - intros resp w' Hrun Hst.
    destruct (submit_success _ _ Hrun Hst)
      as (ps' & [= <-] & _ & _ & _ & _ & -> & Hf & _).
    now split.
Qed.

Lemma submit_forces_unapproved_witness :
  exists w',
    post_api_submit_agent (Some self_approving) scenario
    = (Return (created (JObj [("name", JStr "Baz"); ("approved", JBool false)])),
       w')
    /\ agents_json w'
       = Stored (Document
                   (JArr [a1; a2;
                          JObj [("name", JStr "Baz"); ("approved", JBool false)]])).
Proof.
  destruct (@submit_forces_unapproved (Some self_approving) scenario eq_refl)
    as (ps & Hp & _ & _ & _ & Hok & _).
  injection Hp as <-.
  destruct Hok as (w' & Hrun & _ & Hf);
    [reflexivity | discriminate | discriminate |].
  exists w'. split; [exact Hrun | exact Hf].
Defined.

(** C4. When the file exists and its text is not JSON, the listing answers
    500, the lookup answers 500 for every identifier, and a submission that
    passes validation is answered 500 after one read and no write, the file
    keeping the text it had. *)
Theorem malformed_store_is_fatal raw w :
  agents_json w = Stored (Unparsable raw) ->
  get_api_agents w = (Return parse_error, log ReadFile w)
  /\ (forall i, get_api_agents_id i w = (Return parse_error, log ReadFile w))
  /\ (forall payload,
        invalid_agent payload w = (Return false, w) ->
        exists w',
          post_api_submit_agent payload w
          = (Return (res_status_json 500 (msg parse_failure)), w')
          /\ agents_json w' = Stored (Unparsable raw)
          /\ io_log w' = io_log w ++ [ReadFile]).
Proof.
  intros H. split; [|split].
  - now run_handler get_api_agents H.
  - intros i. now run_handler get_api_agents_id H.
  - intros payload Hv.
    destruct (passes_validation _ Hv) as (ps & -> & Hname).
    rewrite (submit_valid _ w Hname), H.
    eexists. split; [reflexivity|]. now split.
Qed.

Lemma malformed_store_is_fatal_witness :
  get_api_agents truncated = (Return parse_error, log ReadFile truncated)
  /\ get_api_agents_id "a1" truncated = (Return parse_error, log ReadFile truncated)
  /\ exists w',
       post_api_submit_agent (Some baz) truncated
       = (Return (res_status_json 500 (msg parse_failure)), w')
       /\ agents_json w' = Stored (Unparsable "[{")
       /\ io_log w' = io_log truncated ++ [ReadFile].
Proof.
  destruct (@malformed_store_is_fatal "[{" truncated eq_refl) as (Hl & Hg & Hs).
  split; [exact Hl|]. split; [exact (Hg "a1")|].
  exact (Hs (Some baz) eq_refl).
Defined.

(** C5. A file that does not exist: what the claim says of the record
    stored fails on a payload with a number past the largest double, which
    is stored as [null]. *)
Lemma missing_store_submit_counterexample :
  invalid_agent (Some (JObj overflowing)) (on_disk Absent)
  = (Return false, on_disk Absent)
  /\ prepared overflowing = JObj overflowing
  /\ fst (post_api_submit_agent (Some (JObj overflowing)) (on_disk Absent))
     = Return (created (JObj overflowing))
  /\ agents_json (snd (post_api_submit_agent (Some (JObj overflowing))
                         (on_disk Absent)))
     = Stored (Document
                 (JArr [JObj [("name", JNull); ("approved", JBool false)]]))
  /\ agents_json (snd (post_api_submit_agent (Some (JObj overflowing))
                         (on_disk Absent)))
     <> Stored (Document (JArr [JObj overflowing])).
Proof.
  repeat split; try reflexivity.
  vm_compute. intros H. discriminate H.
Qed.

(** C5, amended. When the file does not exist, the listing answers 200
    with the empty array, the lookup answers 404 for every identifier, and
    a submission that passes validation, its write going through, is
    answered 201 and leaves a file holding the one-element array of the
    submitted record as [JSON.stringify] writes it: exactly the record
    prepared from the payload when every number in the payload is finite
    and not a zero. *)
Theorem missing_store_is_empty w :
  agents_json w = Absent ->
  get_api_agents w = (Return (res_json (JArr [])), log ReadFile w)
  /\ (forall i,
        get_api_agents_id i w
        = (Return (res_status_json 404 (msg "Agent not found")), log ReadFile w))
  /\ (forall payload,
        invalid_agent payload w = (Return false, w) ->
        writable w = true ->
        exists ps w',
          payload = Some (JObj ps)
          /\ post_api_submit_agent payload w = (Return (created (prepared ps)), w')
          /\ agents_json w' = Stored (Document (JArr [as_written (prepared ps)]))
          /\ (steady (JObj ps) = true ->
              agents_json w' = Stored (Document (JArr [prepared ps])))).
Proof.
  intros H. split; [|split].
  - now run_handler get_api_agents H.
  - intros i. now run_handler get_api_agents_id H.
  - intros payload Hv Hw.
    destruct (passes_validation _ Hv) as (ps & -> & Hname).
    rewrite (submit_valid _ w Hname), H, Hw.
    exists ps. eexists. split; [reflexivity|]. split; [reflexivity|].
    split; [reflexivity|]. intros Hs. cbn [agents_json loaded map app].
    now rewrite (as_written_prepared_steady _ Hs).
Qed.

Lemma missing_store_is_empty_witness :
  get_api_agents (on_disk Absent)
  = (Return (res_json (JArr [])), log ReadFile (on_disk Absent))
  /\ get_api_agents_id "a1" (on_disk Absent)
     = (Return (res_status_json 404 (msg "Agent not found")),
        log ReadFile (on_disk Absent))
  /\ exists w',
       post_api_submit_agent (Some baz) (on_disk Absent)
       = (Return (created (JObj [("name", JStr "Baz"); ("approved", JBool false)])),
          w')
       /\ agents_json w'
          = Stored (Document
                      (JArr [JObj [("name", JStr "Baz"); ("approved", JBool false)]])).
Proof.
  destruct (@missing_store_is_empty (on_disk Absent) eq_refl) as (Hl & Hg & Hs).
  split; [exact Hl|]. split; [exact (Hg "a1")|].
  destruct (Hs (Some baz) eq_refl eq_refl) as (ps & w' & Hp & Hrun & _ & Hf).
  injection Hp as <-. exists w'. split; [exact Hrun|]. now apply Hf.
Defined.

(** C6. A file whose JSON is not an array: what the claim says of the
    resulting file fails on the same payload, stored with [null] for its
    number. *)
Lemma non_array_submit_counterexample :
  invalid_agent (Some (JObj overflowing)) not_an_array
  = (Return false, not_an_array)
  /\ prepared overflowing = JObj overflowing
  /\ fst (post_api_submit_agent (Some (JObj overflowing)) not_an_array)
     = Return (created (JObj overflowing))
  /\ agents_json (snd (post_api_submit_agent (Some (JObj overflowing))
                         not_an_array))
     = Stored (Document
                 (JArr [JObj [("name", JNull); ("approved", JBool false)]]))
  /\ agents_json (snd (post_api_submit_agent (Some (JObj overflowing))
                         not_an_array))
     <> Stored (Document (JArr [JObj overflowing])).
Proof.
  repeat split; try reflexivity.
  vm_compute. intros H. discriminate H.
Qed.

(** C6, amended. When the file parses to a value that is not an array, the
    listing answers 200 with the empty array, the lookup answers 500 for
    every identifier, and a submission that passes validation, its write
    going through, starts again from the empty sequence: it is answered 201
    and the file then holds one record and nothing of what it held, the new
    record as [JSON.stringify] writes it: exactly the record prepared from
    the payload when every number in the payload is finite and not a
    zero. *)
Theorem non_array_store_diverges v w :
  agents_json w = Stored (Document v) ->
  Array_isArray v = false ->
  get_api_agents w = (Return (res_json (JArr [])), log ReadFile w)
  /\ (forall i,
        get_api_agents_id i w
        = (Return (res_status_json 500 (msg "Error reading agent data.")),
           log ReadFile w))
  /\ (forall payload,
        invalid_agent payload w = (Return false, w) ->
        writable w = true ->
        exists ps w',
          payload = Some (JObj ps)
          /\ post_api_submit_agent payload w = (Return (created (prepared ps)), w')
          /\ agents_json w' = Stored (Document (JArr [as_written (prepared ps)]))
          /\ (steady (JObj ps) = true ->
              agents_json w' = Stored (Document (JArr [prepared ps])))).
Proof.
  intros H Hv. split; [|split].
  - run_handler get_api_agents H. now rewrite Hv.
  - intros i. run_handler get_api_agents_id H. now rewrite Hv.
  - intros payload Hp Hw.
    destruct (passes_validation _ Hp) as (ps & -> & Hname).
    rewrite (submit_valid _ w Hname), H, Hw.
    assert (Hl : loaded (Stored (Document v)) = [])
      by (destruct v; try discriminate Hv; reflexivity).
    exists ps. eexists. split; [reflexivity|]. split; [reflexivity|].
    cbn [agents_json]. rewrite Hl. cbn [map app].
    split; [reflexivity|]. intros Hs.
    now rewrite (as_written_prepared_steady _ Hs).
Qed.

Lemma non_array_store_diverges_witness :
  get_api_agents not_an_array
  = (Return (res_json (JArr [])), log ReadFile not_an_array)
  /\ get_api_agents_id "a1" not_an_array
     = (Return (res_status_json 500 (msg "Error reading agent data.")),
        log ReadFile not_an_array)
  /\ exists w',
       post_api_submit_agent (Some baz) not_an_array
       = (Return (created (JObj [("name", JStr "Baz"); ("approved", JBool false)])),
          w')
       /\ agents_json w'
          = Stored (Document
                      (JArr [JObj [("name", JStr "Baz"); ("approved", JBool false)]])).
Proof.
  destruct (@non_array_store_diverges (JObj [("agents", JArr [a1])]) not_an_array
              eq_refl eq_refl) as (Hl & Hg & Hs).
  split; [exact Hl|]. split; [exact (Hg "a1")|].
  destruct (Hs (Some baz) eq_refl eq_refl) as (ps & w' & Hp & Hrun & _ & Hf).
  injection Hp as <-. exists w'. split; [exact Hrun|]. now apply Hf.
Defined.

(** C7. A payload that is absent or [null], that is an array or a
    primitive, or that is an object with no [name] or with the empty string
    for [name], is answered 400, and the handler leaves the world as it
    found it: the file as it was and no read or write added to the log. *)
Theorem invalid_payload_is_rejected payload w :
  refused payload ->
  post_api_submit_agent payload w
  = (Return (res_status_json 400 (msg "Invalid agent data submitted")), w).
Proof.
  intros H. apply submit_invalid.
  destruct H as [ | | l | b | x | s | ps Hn | ps Hn]; try reflexivity;
    simpl; now rewrite Hn.
Qed.

Lemma invalid_payload_is_rejected_witness :
  post_api_submit_agent (Some (JObj [("name", JStr "")])) scenario
  = (Return (res_status_json 400 (msg "Invalid agent data submitted")), scenario).
Proof.
  apply (@invalid_payload_is_rejected (Some (JObj [("name", JStr "")])) scenario).
  apply refused_empty_name. reflexivity.
Defined.

(** C8. What the claim says of the records already stored fails on a store
    holding a number past the largest double: the submission rewrites the
    whole file and that record comes back with [null] for its number. *)
Lemma submit_appends_counterexample :
  fst (post_api_submit_agent (Some baz) (on_disk (Stored (Document (JArr [a5])))))
  = Return (created (prepared [("name", JStr "Baz")]))
  /\ agents_json (snd (post_api_submit_agent (Some baz)
                         (on_disk (Stored (Document (JArr [a5]))))))
     = Stored (Document
                 (JArr [JObj [("id", JStr "a5"); ("score", JNull);
                              ("approved", JBool true)];
                        JObj [("name", JStr "Baz"); ("approved", JBool false)]]))
  /\ agents_json (snd (post_api_submit_agent (Some baz)
                         (on_disk (Stored (Document (JArr [a5]))))))
     <> Stored (Document (JArr ([a5] ++ [prepared [("name", JStr "Baz")]]))).
Proof.
  repeat split; try reflexivity.
  vm_compute. intros H. discriminate H.
Qed.

(** C8, amended. A submission answered 201 on a store S leaves the file
    holding the records of S, each as [JSON.stringify] writes it, in their
    order, followed by the prepared record as written: one element more,
    nothing merged (the same payload submitted again leaves the record
    twice), and every record of S whose numbers are all finite and not zero
    exactly as it was. *)
Theorem submit_appends_at_end S payload w resp w' :
  agents_json w = Stored (Document (JArr S)) ->
  post_api_submit_agent payload w = (Return resp, w') ->
  status resp = 201 ->
  exists ps S',
    payload = Some (JObj ps)
    /\ agents_json w' = Stored (Document (JArr S'))
    /\ S' = map as_written S ++ [as_written (prepared ps)]
    /\ List.length S' = List.length S + 1
    /\ (forall n x, nth_error S n = Some x ->
                    nth_error S' n = Some (as_written x))
    /\ (forall n x, nth_error S n = Some x -> steady x = true ->
                    nth_error S' n = Some x)
    /\ nth_error S' (List.length S) = Some (as_written (prepared ps))
    /\ (steady (JObj ps) = true -> as_written (prepared ps) = prepared ps)
    /\ exists w'',
        post_api_submit_agent payload w' = (Return (created (prepared ps)), w'')
        /\ agents_json w''
           = Stored (Document
                       (JArr (map as_written S
                                ++ [as_written (prepared ps);
                                    as_written (prepared ps)]))).
Proof.
  intros H Hrun Hst.
  destruct (submit_success _ _ Hrun Hst)
    as (ps & -> & Hname & Hw & _ & _ & -> & Hf & Hw').
  rewrite H in Hf. cbn [loaded] in Hf.
  assert (Hnth : forall n x, nth_error S n = Some x ->
                 nth_error (map as_written S ++ [as_written (prepared ps)]) n
                 = Some (as_written x)).
  { intros n x Hn. rewrite nth_error_app1.
    - now rewrite nth_error_map, Hn.
    - rewrite length_map. apply nth_error_Some. congruence. }
  exists ps, (map as_written S ++ [as_written (prepared ps)]).
  split; [reflexivity|]. split; [exact Hf|]. split; [reflexivity|]. split.
  { now rewrite length_app, length_map. }
  split; [exact Hnth|]. split.
  { intros n x Hn Hs. rewrite (Hnth n x Hn). now rewrite (as_written_steady _ Hs). }
  split.
  { rewrite nth_error_app2; rewrite length_map; [|lia].
    now rewrite Nat.sub_diag. }
  split; [apply as_written_prepared_steady|].
  rewrite (@submit_valid_ok ps w' Hname Hw'); rewrite ?Hf; try discriminate.
  eexists. split; [reflexivity|]. cbn [agents_json loaded].
  rewrite map_app, map_as_written_twice. cbn [map].
  now rewrite as_written_twice, <- app_assoc.
Qed.

Lemma submit_appends_at_end_witness :
  exists ps S',
    Some baz = Some (JObj ps)
    /\ agents_json (snd (post_api_submit_agent (Some baz) scenario))
       = Stored (Document (JArr S'))
    /\ S' = map as_written [a1; a2] ++ [as_written (prepared ps)]
    /\ List.length S' = List.length [a1; a2] + 1
    /\ (forall n x, nth_error [a1; a2] n = Some x ->
                    nth_error S' n = Some (as_written x))
    /\ (forall n x, nth_error [a1; a2] n = Some x -> steady x = true ->
                    nth_error S' n = Some x)
    /\ nth_error S' (List.length [a1; a2]) = Some (as_written (prepared ps))
    /\ (steady (JObj ps) = true -> as_written (prepared ps) = prepared ps)
    /\ exists w'',
        post_api_submit_agent (Some baz)
          (snd (post_api_submit_agent (Some baz) scenario))
        = (Return (created (prepared ps)), w'')
        /\ agents_json w''
           = Stored (Document
                       (JArr (map as_written [a1; a2]
                                ++ [as_written (prepared ps);
                                    as_written (prepared ps)]))).
Proof.
  apply (@submit_appends_at_end [a1; a2] (Some baz) scenario
           (created (prepared [("name", JStr "Baz")]))
           (snd (post_api_submit_agent (Some baz) scenario)));
    reflexivity.
Defined.

(** C9. After a submission answered 201, with nothing else touching the
    file, the listing answers and the new record, as prepared or as
    written, is not among what it shows; when none of the stored elements
    is written as [null], it shows the approved records the store held
    before, as written. *)
Theorem submit_then_list_hides_new payload w resp w' :
  post_api_submit_agent payload w = (Return resp, w') ->
  status resp = 201 ->
  exists ps lresp,
    payload = Some (JObj ps)
    /\ get_api_agents w' = (Return lresp, log ReadFile w')
    /\ (forall out, body lresp = JArr out ->
          ~ In (prepared ps) out /\ ~ In (as_written (prepared ps)) out)
    /\ (~ In JNull (map as_written (loaded (agents_json w))) ->
        lresp = res_json
                  (JArr (map as_written
                           (filter approved (loaded (agents_json w)))))).
Proof.
  intros Hrun Hst.
  destruct (submit_success _ _ Hrun Hst)
    as (ps & -> & _ & _ & _ & _ & _ & Hf & _).
  exists ps.
  set (L := map as_written (loaded (agents_json w))) in *.
  assert (Hlast : In JNull (L ++ [as_written (prepared ps)]) -> In JNull L).
  { intros Hin. apply in_app_or in Hin.
    destruct Hin as [Hin|[Hin|[]]]; [exact Hin | discriminate Hin]. }
  destruct (null_in_dec (L ++ [as_written (prepared ps)])) as [Hin|Hnn].
  - eexists. split; [reflexivity|]. split.
    + now apply list_on_array_with_null with (S := L ++ [as_written (prepared ps)]).
    + split; [intros out Hb; discriminate Hb|].
      intros Hno. now contradiction (Hno (Hlast Hin)).
  - assert (Hflt : filter approved (L ++ [as_written (prepared ps)])
                   = filter approved L).
    { rewrite filter_app. cbn [filter].
      rewrite (proj2 (stored_record_unapproved ps)). apply app_nil_r. }
    eexists. split; [reflexivity|]. split.
    + rewrite (list_on_array w' Hf Hnn), Hflt. reflexivity.
    + split.
      * intros out [= <-]. split; intros Hin; apply filter_In in Hin;
          destruct Hin as [_ Hap].
        -- rewrite prepared_not_approved in Hap. discriminate Hap.
        -- rewrite (proj2 (stored_record_unapproved ps)) in Hap.
           discriminate Hap.
      * intros _. unfold L. now rewrite filter_as_written.
Qed.

Lemma submit_then_list_hides_new_witness :
  exists ps lresp,
    Some self_approving = Some (JObj ps)
    /\ get_api_agents (snd (post_api_submit_agent (Some self_approving) scenario))
       = (Return lresp,
          log ReadFile (snd (post_api_submit_agent (Some self_approving) scenario)))
    /\ (forall out, body lresp = JArr out ->
          ~ In (prepared ps) out /\ ~ In (as_written (prepared ps)) out)
    /\ (~ In JNull (map as_written (loaded (agents_json scenario))) ->
        lresp = res_json
                  (JArr (map as_written
                           (filter approved (loaded (agents_json scenario)))))).
Proof.
  apply (@submit_then_list_hides_new (Some self_approving) scenario
           (created (prepared [("name", JStr "Baz"); ("approved", JBool true)]))
           (snd (post_api_submit_agent (Some self_approving) scenario)));
    reflexivity.
Defined.

(** C10. A record whose [approved] is anything but the boolean [true]
    (absent, falsy, or truthy like the string "true" or the number 1) counts
    as not approved wherever it stands in a store: the listing shows what
    the rest of the store gives, without it, and the lookup answers as if
    the record were not there, so not-found unless another record is an
    approved match. *)
Theorem approval_gate_is_strict ps before after i w :
  own "approved" ps <> Some (JBool true) ->
  ~ In JNull before ->
  ~ In JNull after ->
  agents_json w = Stored (Document (JArr (before ++ JObj ps :: after))) ->
  (exists out,
     get_api_agents w = (Return (res_json (JArr out)), log ReadFile w)
     /\ out = filter approved (before ++ after)
     /\ ~ In (JObj ps) out)
  /\ (exists resp,
        get_api_agents_id i w = (Return resp, log ReadFile w)
        /\ resp = match find (fun r => has_id i r && approved r) (before ++ after) with
                  | Some r => res_json r
                  | None => not_found
                  end
        /\ resp <> res_json (JObj ps)
        /\ ((forall x, In x (before ++ after) -> has_id i x && approved x = false) ->
            resp = not_found)).
Proof.
  intros Hap Hb Ha H.
  assert (Hr : approved (JObj ps) = false).
  { simpl. destruct (own "approved" ps) as [[| [|] | | | |]|]; congruence. }
  assert (Hnn : ~ In JNull (before ++ JObj ps :: after))
    by (apply not_in_app_cons; auto; discriminate).
  split.
  - eexists. split; [|split; [reflexivity|]].
    + rewrite (list_on_array w H Hnn). now rewrite filter_skip.
    + intros Hin. apply filter_In in Hin. destruct Hin as [_ Hin]. congruence.
  - eexists. split; [|split; [reflexivity|split]].
    + rewrite (get_on_array i w H Hnn).
      rewrite find_skip; [reflexivity|]. rewrite Hr. apply andb_false_r.
    + destruct (find _ (before ++ after)) as [r|] eqn:E; [|discriminate].
      intros [= ->]. apply find_some in E. destruct E as [_ E].
      rewrite Hr, andb_false_r in E. discriminate E.
    + intros Hno.
      destruct (find _ (before ++ after)) as [r|] eqn:E; [|reflexivity].
      apply find_some in E. destruct E as [Hin E].
      rewrite (Hno r Hin) in E. discriminate E.
Qed.

Lemma approval_gate_is_strict_witness :
  let w := on_disk (Stored (Document (JArr ([a1] ++ JObj approved_by_string :: [a2])))) in
  (exists out,
     get_api_agents w = (Return (res_json (JArr out)), log ReadFile w)
     /\ out = filter approved ([a1] ++ [a2])
     /\ ~ In (JObj approved_by_string) out)
  /\ (exists resp,
        get_api_agents_id "a3" w = (Return resp, log ReadFile w)
        /\ resp = match find (fun r => has_id "a3" r && approved r) ([a1] ++ [a2]) with
                  | Some r => res_json r
                  | None => not_found
                  end
        /\ resp <> res_json (JObj approved_by_string)
        /\ ((forall x, In x ([a1] ++ [a2]) -> has_id "a3" x && approved x = false) ->
            resp = not_found)).
Proof.
  apply (@approval_gate_is_strict approved_by_string [a1] [a2] "a3"
           (on_disk (Stored (Document (JArr ([a1] ++ JObj approved_by_string :: [a2])))))).
  - discriminate.
  - simpl. intros [H|[]]. discriminate H.
  - simpl. intros [H|[]]. discriminate H.
  - reflexivity.
Defined.

(** The two truthy values of the claim, run. *)
Example truthy_string_is_not_approved :
  let w := on_disk (Stored (Document (JArr [JObj approved_by_string]))) in
  truthy (own "approved" approved_by_string) = true
  /\ fst (get_api_agents w) = Return (res_json (JArr []))
  /\ fst (get_api_agents_id "a3" w) = Return not_found.
Proof. repeat split. Qed.

Example truthy_number_is_not_approved :
  let w := on_disk (Stored (Document (JArr [JObj approved_by_number]))) in
  truthy (own "approved" approved_by_number) = true
  /\ fst (get_api_agents w) = Return (res_json (JArr []))
  /\ fst (get_api_agents_id "a4" w) = Return not_found.
Proof. repeat split. Qed.

(* ================================================================= *)
(** ** Further properties of the handlers *)

Lemma existsb_is_null l : existsb is_null l = true <-> In JNull l.
Proof.
  rewrite existsb_exists. split.
  - intros (x & Hin & Hx). destruct x; try discriminate Hx. exact Hin.
  - intros Hin. now exists JNull.
Qed.

Lemma no_null_iff l : existsb is_null l = false <-> ~ In JNull l.
Proof.
  rewrite <- existsb_is_null. destruct (existsb is_null l); split; easy.
Qed.

(** [filter] with the callback of line 22, on any array. *)
Lemma Array_filter_any l w :
  Array_filter approved_callback l w
  = (if existsb is_null l then Throw TypeError else Return (filter approved l), w).
Proof.
  destruct (existsb is_null l) eqn:E.
  - apply Array_filter_throws. now apply existsb_is_null.
  - apply Array_filter_spec. now apply no_null_iff.
Qed.

(** [find] with the callback of lines 54-58, on any array: it stops at the
    first element that is [null] or an approved match, whichever is first. *)
Lemma Array_find_any i l w :
  Array_find (match_callback i) l w
  = (match find (fun x => is_null x || (has_id i x && approved x)) l with
     | Some JNull => Throw TypeError
     | Some r => Return (Some r)
     | None => Return undefined
     end, w).
Proof.
  induction l as [|x rest IH]; [reflexivity|].
  simpl. unfold bind.
  assert (Hx : x = JNull \/ x <> JNull) by (destruct x; auto; right; discriminate).
  destruct Hx as [->|Hx]; [reflexivity|].
  rewrite match_callback_spec by exact Hx.
  replace (is_null x) with false by (destruct x; simpl; congruence).
  simpl orb. destruct (has_id i x && approved x) eqn:E.
  - destruct x; try reflexivity. congruence.
  - apply IH.
Qed.

Lemma loaded_array w S :
  agents_json w = Stored (Document (JArr S)) -> loaded (agents_json w) = S.
Proof. now intros ->. Qed.


(** Lines 44-80, for a decoded identifier. *)
Lemma get_answers_once_decoded i w :
  exists r,
    get_api_agents_id i w = (Return r, log ReadFile w)
    /\ (status r = 200 \/ status r = 404 \/ status r = 500)
    /\ (status r = 200 ->
        has_id i (body r) = true /\ approved (body r) = true
        /\ In (body r) (loaded (agents_json w)))
    /\ (status r = 404 ->
        agents_json w = Absent
        \/ exists S, agents_json w = Stored (Document (JArr S))
                     /\ forall x, In x S -> has_id i x && approved x = false).
Proof.
  destruct (agents_json w) as [| |[raw|v]] eqn:E.
  - eexists. split; [now run_handler get_api_agents_id E|]. simpl.
    split; [tauto|]. split; [discriminate|]. intros _. now left.
  - eexists. split; [now run_handler get_api_agents_id E|]. simpl.
    split; [tauto|]. split; discriminate.
  - eexists. split; [now run_handler get_api_agents_id E|]. simpl.
    split; [tauto|]. split; discriminate.
  - destruct v as [| b | x | s | l | ps];
      try (eexists; split; [now run_handler get_api_agents_id E|]; simpl;
           split; [tauto|]; split; discriminate).
    destruct (find (fun x => is_null x || (has_id i x && approved x)) l)
      as [r|] eqn:Ef.
    + destruct (find_some _ _ Ef) as [Hin Hr].
      destruct r as [| b | x | s | l' | ps]; try discriminate Hr.
      * exists fetch_details_failed. split.
        -- run_handler get_api_agents_id E.
           change (Array_find _ l) with (Array_find (match_callback i) l).
           now rewrite Array_find_any, Ef.
        -- simpl. split; [tauto|]. split; discriminate.
      * exists (res_json (JObj ps)). split.
        -- run_handler get_api_agents_id E.
           change (Array_find _ l) with (Array_find (match_callback i) l).
           now rewrite Array_find_any, Ef.
        -- simpl. split; [tauto|]. split; [|discriminate].
           intros _. simpl in Hr. apply andb_prop in Hr. tauto.
    + exists not_found. split.
      * run_handler get_api_agents_id E.
        change (Array_find _ l) with (Array_find (match_callback i) l).
        now rewrite Array_find_any, Ef.
      * simpl. split; [tauto|]. split; [discriminate|].
        intros _. right. exists l. split; [reflexivity|].
        intros x Hx. pose proof (find_none _ _ Ef x Hx) as Hn.
        simpl in Hn. apply orb_false_elim in Hn. tauto.
Qed.

(** X2. The lookup handler, from line 41 on. When [decodeURIComponent]
    throws on the path parameter, the [URIError] leaves the handler, which
    sends no answer and reads nothing: line 41 is outside the [try]. When
    it returns an identifier, the handler answers with 200, 404 or 500
    after one read and no write; a 200 carries an element of the stored
    array that has that [id] and is approved; a 404 is given only when the
    file is missing or holds an array with no approved record of that
    [id]. *)
Theorem lookup_answers_unless_decoding_throws decodeURIComponent req_params_id w :
  (decodeURIComponent req_params_id = None ->
   get_api_agents_id_request decodeURIComponent req_params_id w
   = (Throw URIError, w))
  /\ (forall i,
        decodeURIComponent req_params_id = Some i ->
        exists r,
          get_api_agents_id_request decodeURIComponent req_params_id w
          = (Return r, log ReadFile w)
          /\ (status r = 200 \/ status r = 404 \/ status r = 500)
          /\ (status r = 200 ->
              has_id i (body r) = true /\ approved (body r) = true
              /\ In (body r) (loaded (agents_json w)))
          /\ (status r = 404 ->
              agents_json w = Absent
              \/ exists S, agents_json w = Stored (Document (JArr S))
                           /\ forall x, In x S ->
                                has_id i x && approved x = false)).
Proof.
  unfold get_api_agents_id_request, bind. split.
  - intros ->. reflexivity.
  - intros i ->. cbn [ret]. apply get_answers_once_decoded.
Qed.

(** X3. The submit handler always answers, with 201, 400 or 500. A 400
    leaves the world as it was. A 500 comes either after a read alone, the
    file as it was, or after a read and one write that failed: then the
    file is as it was if the write failed at the open, and holds the
    unparsable part that got written if it failed later. A 201 comes after
    exactly one read and then one write, and the file then holds what was
    loaded, as written, followed by the new record as written; it is given
    exactly when the payload passes validation, the file is readable and is
    not unparsable text, and the write goes through. *)
Theorem submit_always_answers payload w :
  exists r w',
    post_api_submit_agent payload w = (Return r, w')
    /\ (status r = 201 \/ status r = 400 \/ status r = 500)
    /\ (status r = 400 -> w' = w)
    /\ (status r = 500 ->
        w' = log ReadFile w
        \/ exists t,
             io_log w' = io_log w ++ [ReadFile; WriteFile t]
             /\ writable w = false
             /\ (cut_short w = None -> agents_json w' = agents_json w)
             /\ (forall raw, cut_short w = Some raw ->
                             agents_json w' = Stored (Unparsable raw)))
    /\ (status r = 201 ->
        exists ps,
          payload = Some (JObj ps)
          /\ agents_json w'
             = Stored (Document (JArr (map as_written (loaded (agents_json w))
                                         ++ [as_written (prepared ps)])))
          /\ io_log w'
             = io_log w
               ++ [ReadFile;
                   WriteFile (Document
                                (JArr (map as_written (loaded (agents_json w))
                                         ++ [as_written (prepared ps)])))])
    /\ (status r = 201 <->
        valid_payload payload = true
        /\ writable w = true
        /\ agents_json w <> Unreadable
        /\ forall raw, agents_json w <> Stored (Unparsable raw)).
Proof.
  destruct (valid_payload payload) eqn:Hv.
  - destruct payload as [[| | | | |ps]|]; try discriminate Hv.
    simpl in Hv. rewrite (submit_valid _ w Hv).
    assert (Hfail : forall t,
               exists t0,
                 io_log (failed_write t (log ReadFile w))
                 = io_log w ++ [ReadFile; WriteFile t0]
                 /\ (cut_short w = None ->
                     agents_json (failed_write t (log ReadFile w)) = agents_json w)
                 /\ (forall raw, cut_short w = Some raw ->
                       agents_json (failed_write t (log ReadFile w))
                       = Stored (Unparsable raw))).
    { intros t. exists t. unfold failed_write. cbn [cut_short log].
      destruct (cut_short w) as [raw|]; cbn [io_log agents_json log];
        rewrite <- app_assoc; repeat split; try discriminate; congruence. }
    destruct (agents_json w) as [| |[raw|v]] eqn:E.
    + destruct (writable w) eqn:Hw; do 2 eexists; (split; [reflexivity|]);
        cbn [status created save_failed res_status_json].
      * split; [tauto|]. split; [discriminate|]. split; [discriminate|].
        split.
        -- intros _. exists ps. split; [reflexivity|]. split; [reflexivity|].
           cbn [io_log]. now rewrite <- app_assoc.
        -- split; [intros _|reflexivity]. repeat split; discriminate.
      * split; [tauto|]. split; [discriminate|]. split.
        -- intros _. right.
           destruct (Hfail (Document (JArr (map as_written (loaded Absent)
                                              ++ [as_written (prepared ps)]))))
             as (t0 & H1 & H2 & H3).
           exists t0. repeat split; assumption.
        -- split; [discriminate|]. split; [discriminate|].
           intros (_ & H & _). discriminate H.
    + do 2 eexists. split; [reflexivity|].
      cbn [status save_failed res_status_json].
      split; [tauto|]. split; [discriminate|]. split.
      * intros _. now left.
      * split; [discriminate|]. split; [discriminate|].
        intros (_ & _ & H & _). now contradiction H.
    + do 2 eexists. split; [reflexivity|]. cbn [status res_status_json].
      split; [tauto|]. split; [discriminate|]. split.
      * intros _. now left.
      * split; [discriminate|]. split; [discriminate|].
        intros (_ & _ & _ & H). now contradiction (H raw).
    + destruct (writable w) eqn:Hw; do 2 eexists; (split; [reflexivity|]);
        cbn [status created save_failed res_status_json].
      * split; [tauto|]. split; [discriminate|]. split; [discriminate|].
        split.
        -- intros _. exists ps. split; [reflexivity|]. split; [reflexivity|].
           cbn [io_log]. now rewrite <- app_assoc.
        -- split; [intros _|reflexivity]. repeat split; discriminate.
      * split; [tauto|]. split; [discriminate|]. split.
        -- intros _. right.
           destruct (Hfail (Document
                              (JArr (map as_written (loaded (Stored (Document v)))
                                       ++ [as_written (prepared ps)]))))
             as (t0 & H1 & H2 & H3).
           exists t0. repeat split; assumption.
        -- split; [discriminate|]. split; [discriminate|].
           intros (_ & H & _). discriminate H.
  - rewrite (submit_invalid _ w Hv). do 2 eexists. split; [reflexivity|].
    simpl. split; [tauto|]. split; [reflexivity|].
    split; [discriminate|]. split; [discriminate|].
    split; [discriminate|]. intros (H & _). discriminate H.
Qed.

Lemma find_at {A} (p : A -> bool) before r after :
  (forall x, In x before -> p x = false) ->
  p r = true ->
  find p (before ++ r :: after) = Some r.
Proof.
  intros Hb Hr. induction before as [|x rest IH]; simpl.
  - now rewrite Hr.
  - rewrite (Hb x) by now left. apply IH. intros y Hy. apply Hb. now right.
Qed.

Lemma is_null_false_of_not_in before x :
  ~ In JNull before -> In x before -> is_null x = false.
Proof. intros Hnn Hin. destruct x; try reflexivity. contradiction. Qed.

(** X4. When the read of the file fails with an error other than ENOENT,
    the listing and the lookup answer 500 with their catch-all messages,
    and a submission that passes validation answers 500 'Error saving agent
    data' without attempting a write. *)
Theorem unreadable_store_is_server_error w :
  agents_json w = Unreadable ->
  get_api_agents w = (Return fetch_failed, log ReadFile w)
  /\ (forall i,
        get_api_agents_id i w = (Return fetch_details_failed, log ReadFile w))
  /\ (forall payload,
        invalid_agent payload w = (Return false, w) ->
        post_api_submit_agent payload w = (Return save_failed, log ReadFile w)).
Proof.
  intros H. split; [|split].
  - now run_handler get_api_agents H.
  - intros i. now run_handler get_api_agents_id H.
  - intros payload Hv.
    destruct (passes_validation _ Hv) as (ps & -> & Hname).
    now rewrite (submit_valid _ w Hname), H.
Qed.

Lemma unreadable_store_is_server_error_witness :
  get_api_agents locked = (Return fetch_failed, log ReadFile locked)
  /\ get_api_agents_id "a1" locked
     = (Return fetch_details_failed, log ReadFile locked)
  /\ post_api_submit_agent (Some baz) locked
     = (Return save_failed, log ReadFile locked).
Proof.
  destruct (@unreadable_store_is_server_error locked eq_refl) as (Hl & Hg & Hs).
  split; [exact Hl|]. split; [exact (Hg "a1")|].
  exact (Hs (Some baz) eq_refl).
Defined.

(** X5. When the file can be read (or is missing) but the write fails, a
    submission that passes validation answers 500 'Error saving agent data'
    after one read and the one failed write of the grown array. If the
    write failed at the open, the file keeps what it held. If it failed
    later, the file holds the unparsable part that got written, and from
    then on the three handlers answer 500 to everything valid: the listing
    and the lookup with the parse error, a submission with the parse
    failure. *)
Theorem failed_write_is_server_error payload w :
  invalid_agent payload w = (Return false, w) ->
  writable w = false ->
  agents_json w <> Unreadable ->
  (forall raw, agents_json w <> Stored (Unparsable raw)) ->
  exists ps w',
    payload = Some (JObj ps)
    /\ post_api_submit_agent payload w = (Return save_failed, w')
    /\ io_log w'
       = io_log w
         ++ [ReadFile;
             WriteFile (Document (JArr (map as_written (loaded (agents_json w))
                                          ++ [as_written (prepared ps)])))]
    /\ (cut_short w = None -> agents_json w' = agents_json w)
    /\ (forall raw,
          cut_short w = Some raw ->
          agents_json w' = Stored (Unparsable raw)
          /\ fst (get_api_agents w') = Return parse_error
          /\ (forall i, fst (get_api_agents_id i w') = Return parse_error)
          /\ (forall q,
                truthy (own "name" q) = true ->
                fst (post_api_submit_agent (Some (JObj q)) w')
                = Return (res_status_json 500 (msg parse_failure)))).
Proof.
  intros Hv Hw Hr Hp.
  destruct (passes_validation _ Hv) as (ps & -> & Hname).
  exists ps. rewrite (submit_valid _ w Hname), Hw.
  set (t := Document (JArr (map as_written (loaded (agents_json w))
                              ++ [as_written (prepared ps)]))).
  assert (Hrun : match agents_json w with
                 | Unreadable => (Return save_failed, log ReadFile w)
                 | Stored (Unparsable _) =>
                     (Return (res_status_json 500 (msg parse_failure)),
                      log ReadFile w)
                 | d => (Return save_failed,
                         failed_write
                           (Document (JArr (map as_written (loaded d)
                                              ++ [as_written (prepared ps)])))
                           (log ReadFile w))
                 end
                 = (Return save_failed, failed_write t (log ReadFile w))).
  { subst t. destruct (agents_json w) as [| |[raw|v]]; try reflexivity.
    - congruence.
    - now contradiction (Hp raw). }
  exists (failed_write t (log ReadFile w)).
  split; [reflexivity|]. split.
  { rewrite <- Hrun. destruct (agents_json w) as [| |[raw|v]]; reflexivity. }
  unfold failed_write. cbn [cut_short log].
  destruct (cut_short w) as [raw|] eqn:Ec; cbn [io_log agents_json log].
  - split; [now rewrite <- app_assoc|]. split; [discriminate|].
    intros raw' [= <-]. split; [reflexivity|]. split; [reflexivity|].
    split; [reflexivity|]. intros q Hq.
    now rewrite (submit_valid _ _ Hq).
  - split; [now rewrite <- app_assoc|]. split; [reflexivity|]. discriminate.
Qed.

Lemma failed_write_is_server_error_witness :
  (exists w',
     post_api_submit_agent (Some baz) read_only = (Return save_failed, w')
     /\ agents_json w' = agents_json read_only)
  /\ (exists w',
        post_api_submit_agent (Some baz) disk_full = (Return save_failed, w')
        /\ agents_json w' = Stored (Unparsable "[")
        /\ fst (get_api_agents w') = Return parse_error).
Proof.
  split.
  - destruct (@failed_write_is_server_error (Some baz) read_only eq_refl eq_refl)
      as (ps & w' & _ & Hrun & _ & Hkeep & _);
      [discriminate | discriminate |].
    exists w'. split; [exact Hrun | now apply Hkeep].
  - destruct (@failed_write_is_server_error (Some baz) disk_full eq_refl eq_refl)
      as (ps & w' & _ & Hrun & _ & _ & Hcut);
      [discriminate | discriminate |].
    destruct (Hcut "[" eq_refl) as (Hf & Hl & _).
    exists w'. split; [exact Hrun|]. split; [exact Hf | exact Hl].
Defined.

(** X6. A [null] among the elements of the stored array stops a scan that
    reaches it: the listing answers 500 whenever the array holds one; the
    lookup answers 500 when a [null] comes before any approved match, and
    still answers with the first approved match when every [null] comes
    after it. *)
Theorem null_element_stops_the_scan S i w :
  agents_json w = Stored (Document (JArr S)) ->
  (In JNull S -> get_api_agents w = (Return fetch_failed, log ReadFile w))
  /\ (forall before after,
        S = before ++ JNull :: after ->
        ~ In JNull before ->
        (forall x, In x before -> has_id i x && approved x = false) ->
        get_api_agents_id i w = (Return fetch_details_failed, log ReadFile w))
  /\ (forall before r after,
        S = before ++ r :: after ->
        ~ In JNull before ->
        (forall x, In x before -> has_id i x && approved x = false) ->
        has_id i r && approved r = true ->
        get_api_agents_id i w = (Return (res_json r), log ReadFile w)).
Proof.
  intros H. split; [|split].
  - intros Hin. run_handler get_api_agents H.
    change (Array_filter _ S) with (Array_filter approved_callback S).
    apply existsb_is_null in Hin. now rewrite Array_filter_any, Hin.
  - intros before after -> Hnn Hno. run_handler get_api_agents_id H.
    change (Array_find _ (before ++ JNull :: after))
      with (Array_find (match_callback i) (before ++ JNull :: after)).
    rewrite Array_find_any, find_at; [reflexivity| |reflexivity].
    intros x Hx. now rewrite (@is_null_false_of_not_in before x Hnn Hx), (Hno x Hx).
  - intros before r after -> Hnn Hno Hr. run_handler get_api_agents_id H.
    change (Array_find _ (before ++ r :: after))
      with (Array_find (match_callback i) (before ++ r :: after)).
    rewrite Array_find_any, find_at.
    + destruct r; try discriminate Hr. reflexivity.
    + intros x Hx. now rewrite (@is_null_false_of_not_in before x Hnn Hx), (Hno x Hx).
    + rewrite Hr. apply orb_true_r.
Qed.

Lemma null_element_stops_the_scan_witness :
  get_api_agents holed = (Return fetch_failed, log ReadFile holed)
  /\ get_api_agents_id "a2" holed
     = (Return fetch_details_failed, log ReadFile holed)
  /\ get_api_agents_id "a1" holed = (Return (res_json a1), log ReadFile holed).
Proof.
  destruct (@null_element_stops_the_scan [a2; a1; JNull] "a1" holed eq_refl)
    as (Hl & _ & Hf).
  destruct (@null_element_stops_the_scan [a2; a1; JNull] "a2" holed eq_refl)
    as (_ & Hn & _).
  split; [apply Hl; simpl; tauto|]. split.
  - apply (Hn [a2; a1] []); [reflexivity| |].
    + simpl. intros [H|[H|[]]]; discriminate H.
    + intros x [<-|[<-|[]]]; reflexivity.
  - apply (Hf [a2] a1 [JNull]); [reflexivity| | |reflexivity].
    + simpl. intros [H|[]]. discriminate H.
    + intros x [<-|[]]. reflexivity.
Defined.

Lemma submit_status_400_iff payload w :
  exists r w',
    post_api_submit_agent payload w = (Return r, w')
    /\ (status r = 400 <-> valid_payload payload = false).
Proof.
  destruct (valid_payload payload) eqn:Hv.
  - destruct payload as [[| | | | |ps]|]; try discriminate Hv.
    simpl in Hv. rewrite (submit_valid _ w Hv).
    destruct (agents_json w) as [| |[raw|v]]; try destruct (writable w);
      do 2 eexists; (split; [reflexivity|]); simpl; split; discriminate.
  - rewrite (submit_invalid _ w Hv). do 2 eexists.
    split; [reflexivity|]. simpl. tauto.
Qed.

(** X7. The validation of a submission is a truthiness test on [name]: the
    answer is 400 exactly when the payload is not an object with a truthy
    [name]. So a [name] that is [null], [false], [0] or the empty string is
    refused like a missing one, and a [name] that is an array, an object,
    [true] or any non-empty string is let through: it need not be a
    string. *)
Theorem validation_tests_truthiness_of_name payload w :
  exists r w',
    post_api_submit_agent payload w = (Return r, w')
    /\ (status r = 400 <->
        ~ (exists ps, payload = Some (JObj ps) /\ truthy (own "name" ps) = true))
    /\ (forall ps,
          payload = Some (JObj ps) ->
          In (own "name" ps)
             [None; Some JNull; Some (JBool false); Some (JNum 0); Some (JStr "")] ->
          status r = 400)
    /\ (forall ps v,
          payload = Some (JObj ps) ->
          own "name" ps = Some v ->
          (exists l, v = JArr l) \/ (exists qs, v = JObj qs) \/ v = JBool true
          \/ (exists c s, v = JStr (String c s)) ->
          status r <> 400).
Proof.
  destruct (submit_status_400_iff payload w) as (r & w' & Hrun & Hst).
  exists r, w'. split; [exact Hrun|]. split; [|split].
  - rewrite Hst. split.
    + intros Hv (ps & -> & Hn). simpl in Hv. congruence.
    + intros Hno. destruct payload as [[| | | | |ps]|]; try reflexivity.
      simpl. destruct (truthy (own "name" ps)) eqn:Hn; [|reflexivity].
      exfalso. apply Hno. now exists ps.
  - intros ps -> Hin. apply Hst. simpl.
    destruct Hin as [<-|[<-|[<-|[<-|[<-|[]]]]]]; reflexivity.
  - intros ps v -> Hn Hv Hs. apply Hst in Hs. simpl in Hs. rewrite Hn in Hs.
    destruct Hv as [(l & ->)|[(qs & ->)|[->|(c & s & ->)]]]; discriminate Hs.
Qed.

(** X8. A submission answered 201 on a store S none of whose elements is
    written as [null] changes which record no lookup finds: for every
    identifier the lookup finds after it the record it found before (the
    first approved one of that [id] in S), answered as the rewritten file
    holds it, or answers not-found as before, also when the payload carried
    that very [id] and [approved: true]. When the record found has only
    finite numbers other than zero, the answer is the same to the letter. *)
Theorem submit_keeps_lookups S payload w resp w' i :
  agents_json w = Stored (Document (JArr S)) ->
  ~ In JNull (map as_written S) ->
  post_api_submit_agent payload w = (Return resp, w') ->
  status resp = 201 ->
  fst (get_api_agents_id i w)
  = Return (match find (fun r => has_id i r && approved r) S with
            | Some r => res_json r
            | None => not_found
            end)
  /\ fst (get_api_agents_id i w')
     = Return (match find (fun r => has_id i r && approved r) S with
               | Some r => res_json (as_written r)
               | None => not_found
               end)
  /\ ((forall r, find (fun r => has_id i r && approved r) S = Some r ->
                 steady r = true) ->
      fst (get_api_agents_id i w') = fst (get_api_agents_id i w)).
Proof.
  intros H Hnn' Hrun Hst.
  pose proof (as_written_null_free _ Hnn') as Hnn.
  destruct (submit_success _ _ Hrun Hst)
    as (ps & -> & _ & _ & _ & _ & _ & Hf & _).
  rewrite (loaded_array _ H) in Hf.
  assert (Hnn2 : ~ In JNull (map as_written S ++ [as_written (prepared ps)])).
  { apply not_in_app_cons; [discriminate | exact Hnn' | intros []]. }
  assert (Hfind : find (fun r => has_id i r && approved r)
                    (map as_written S ++ [as_written (prepared ps)])
                  = option_map as_written
                      (find (fun r => has_id i r && approved r) S)).
  { rewrite find_skip, app_nil_r; [apply find_as_written|].
    rewrite (proj2 (stored_record_unapproved ps)). apply andb_false_r. }
  rewrite (get_on_array i w' Hf Hnn2), (get_on_array i w H Hnn), Hfind.
  cbn [fst]. split; [reflexivity|].
  destruct (find _ S) as [r|] eqn:E; cbn [option_map].
  - split; [reflexivity|]. intros Hs.
    now rewrite (as_written_steady _ (Hs r eq_refl)).
  - split; [reflexivity|]. reflexivity.
Qed.

Lemma submit_keeps_lookups_witness :
  fst (get_api_agents_id "a2" scenario) = Return not_found
  /\ fst (get_api_agents_id "a2"
            (snd (post_api_submit_agent (Some impostor) scenario)))
     = Return not_found.
Proof.
  destruct (@submit_keeps_lookups [a1; a2] (Some impostor) scenario
              (created (prepared [("id", JStr "a2"); ("name", JStr "Bar");
                                  ("approved", JBool true)]))
              (snd (post_api_submit_agent (Some impostor) scenario)) "a2"
              eq_refl) as (Hb & Ha & _).
  - simpl. intros [H|[H|[]]]; discriminate H.
  - reflexivity.
  - reflexivity.
  - split; [exact Hb | exact Ha].
Defined.

Lemma define_absent k v ps :
  own k ps = None -> define k v ps = ps ++ [(k, v)].
Proof.
  induction ps as [|[k' v'] rest IH]; simpl; [reflexivity|].
  destruct (String.eqb k' k); [discriminate|].
  intros H. now rewrite IH.
Qed.

Lemma define_present k v ps :
  own k ps <> None -> map fst (define k v ps) = map fst ps.
Proof.
  induction ps as [|[k' v'] rest IH]; simpl;
    [intros H; exfalso; apply H; reflexivity|].
  destruct (String.eqb k' k); [reflexivity|].
  intros H. simpl. now rewrite IH.
Qed.

Lemma define_twice k v ps : define k v (define k v ps) = define k v ps.
Proof.
  induction ps as [|[k' v'] rest IH]; simpl.
  - now rewrite String.eqb_refl.
  - destruct (String.eqb k' k) eqn:E; simpl; rewrite E; [reflexivity|].
    now rewrite IH.
Qed.

Lemma define_present_split k v ps old :
  own k ps = Some old ->
  exists before after,
    ps = before ++ (k, old) :: after
    /\ own k before = None
    /\ define k v ps = before ++ (k, v) :: after.
Proof.
  induction ps as [|[k' v'] rest IH]; [discriminate|].
  simpl. destruct (String.eqb k' k) eqn:E.
  - intros [= <-]. apply String.eqb_eq in E. subst k'.
    exists [], rest. repeat split.
  - intros H. destruct (IH H) as (b & a & -> & Hb & Hd).
    exists ((k', v') :: b), a. simpl. rewrite E, Hd. repeat split. exact Hb.
Qed.

(** X9. The record that line 92 makes of a payload is the payload with
    [approved: false]: when the client sent no [approved], its properties
    followed by [approved: false]; when it sent one, its properties with
    the value of that one property replaced by [false], where it stood. It
    passes validation when the payload does, and submitting it again makes
    the same record. *)
Theorem prepared_is_payload_with_approved_false ps :
  (own "approved" ps = None ->
   prepared ps = JObj (ps ++ [("approved", JBool false)]))
  /\ (forall sent,
        own "approved" ps = Some sent ->
        exists before after,
          ps = before ++ ("approved", sent) :: after
          /\ own "approved" before = None
          /\ prepared ps = JObj (before ++ ("approved", JBool false) :: after))
  /\ valid_payload (Some (prepared ps)) = valid_payload (Some (JObj ps))
  /\ (forall qs, prepared ps = JObj qs -> prepared qs = prepared ps).
Proof.
  unfold prepared. split; [|split; [|split]].
  - intros H. now rewrite define_absent.
  - intros sent H.
    destruct (@define_present_split "approved" (JBool false) ps sent H)
      as (b & a & Hps & Hb & Hd).
    exists b, a. now rewrite Hd.
  - simpl. rewrite own_define_other; [reflexivity|discriminate].
  - intros qs [= <-]. now rewrite define_twice.
Qed.

(** X10. An approved record whose [id] is not a string (absent, a number,
    ...) is shown by the listing and can be fetched by no identifier: the
    lookup answers as on the store without it. *)
Theorem record_without_string_id_is_unreachable ps before after w :
  (forall s, own "id" ps <> Some (JStr s)) ->
  approved (JObj ps) = true ->
  ~ In JNull before ->
  ~ In JNull after ->
  agents_json w = Stored (Document (JArr (before ++ JObj ps :: after))) ->
  (exists out,
     get_api_agents w = (Return (res_json (JArr out)), log ReadFile w)
     /\ In (JObj ps) out)
  /\ forall i,
       exists resp,
         get_api_agents_id i w = (Return resp, log ReadFile w)
         /\ resp = match find (fun r => has_id i r && approved r) (before ++ after) with
                   | Some r => res_json r
                   | None => not_found
                   end
         /\ resp <> res_json (JObj ps).
Proof.
  intros Hid Hap Hb Ha H.
  assert (Hnn : ~ In JNull (before ++ JObj ps :: after))
    by (apply not_in_app_cons; auto; discriminate).
  assert (Hno : forall i, has_id i (JObj ps) = false).
  { intros i. simpl. destruct (own "id" ps) as [[| | | s | |]|]; try reflexivity.
    now contradiction (Hid s). }
  split.
  - eexists. split; [apply (list_on_array w H Hnn)|].
    apply filter_In. split; [apply in_elt | exact Hap].
  - intros i. eexists. split; [|split; [reflexivity|]].
    + rewrite (get_on_array i w H Hnn).
      rewrite find_skip; [reflexivity|]. now rewrite Hno.
    + destruct (find _ (before ++ after)) as [r|] eqn:E; [|discriminate].
      intros [= ->]. apply find_some in E. destruct E as [_ E].
      rewrite Hno in E. discriminate E.
Qed.

Lemma record_without_string_id_is_unreachable_witness :
  let r := [("id", JNum 7); ("approved", JBool true)] in
  let w := on_disk (Stored (Document (JArr ([a1] ++ JObj r :: [a2])))) in
  (exists out,
     get_api_agents w = (Return (res_json (JArr out)), log ReadFile w)
     /\ In (JObj r) out)
  /\ forall i,
       exists resp,
         get_api_agents_id i w = (Return resp, log ReadFile w)
         /\ resp = match find (fun r => has_id i r && approved r) ([a1] ++ [a2]) with
                   | Some r => res_json r
                   | None => not_found
                   end
         /\ resp <> res_json (JObj r).
Proof.
  apply (@record_without_string_id_is_unreachable
           [("id", JNum 7); ("approved", JBool true)] [a1] [a2]
           (on_disk (Stored (Document
              (JArr ([a1] ++ JObj [("id", JNum 7); ("approved", JBool true)]
                          :: [a2])))))).
  - intros s. discriminate.
  - reflexivity.
  - simpl. intros [H|[]]. discriminate H.
  - simpl. intros [H|[]]. discriminate H.
  - reflexivity.
Defined.

Lemma has_id_field i r : has_id i r = true <-> field "id" r = Some (JStr i).
Proof.
  destruct r as [| | | | |ps]; simpl; try (split; discriminate).
  destruct (own "id" ps) as [[| | | s | |]|]; try (split; discriminate).
  rewrite String.eqb_eq. split; congruence.
Qed.

(** X11. On a store with no [null] element the lookup and the listing
    agree: a record the lookup answers with is in the listing and carries
    the requested [id], and for every listed record with a string [id] the
    lookup of that [id] answers with a listed record of that [id] (the
    first one, which need not be the same record). *)
Theorem lookup_agrees_with_listing S w :
  agents_json w = Stored (Document (JArr S)) ->
  ~ In JNull S ->
  exists out,
    get_api_agents w = (Return (res_json (JArr out)), log ReadFile w)
    /\ (forall i r,
          fst (get_api_agents_id i w) = Return (res_json r) ->
          In r out /\ field "id" r = Some (JStr i))
    /\ (forall r i,
          In r out ->
          field "id" r = Some (JStr i) ->
          exists r',
            fst (get_api_agents_id i w) = Return (res_json r')
            /\ In r' out /\ field "id" r' = Some (JStr i)).
Proof.
  intros H Hnn. exists (filter approved S).
  split; [apply (list_on_array w H Hnn)|]. split.
  - intros i r. rewrite (get_on_array i w H Hnn). simpl.
    destruct (find _ S) as [r0|] eqn:E; [|discriminate].
    intros [= <-]. apply find_some in E. destruct E as [Hin Hm].
    apply andb_prop in Hm. destruct Hm as [Hid Hap]. split.
    + apply filter_In. now split.
    + now apply has_id_field.
  - intros r i Hin Hid. apply filter_In in Hin. destruct Hin as [Hin Hap].
    apply has_id_field in Hid.
    rewrite (get_on_array i w H Hnn). simpl.
    destruct (find _ S) as [r0|] eqn:E.
    + apply find_some in E. destruct E as [Hin0 Hm].
      apply andb_prop in Hm. destruct Hm as [Hid0 Hap0].
      exists r0. split; [reflexivity|]. split.
      * apply filter_In. now split.
      * now apply has_id_field.
    + pose proof (find_none _ _ E r Hin) as Hn. simpl in Hn.
      rewrite Hid, Hap in Hn. discriminate Hn.
Qed.

Lemma lookup_agrees_with_listing_witness :
  exists out,
    get_api_agents scenario = (Return (res_json (JArr out)), log ReadFile scenario)
    /\ (forall i r,
          fst (get_api_agents_id i scenario) = Return (res_json r) ->
          In r out /\ field "id" r = Some (JStr i))
    /\ (forall r i,
          In r out ->
          field "id" r = Some (JStr i) ->
          exists r',
            fst (get_api_agents_id i scenario) = Return (res_json r')
            /\ In r' out /\ field "id" r' = Some (JStr i)).
Proof.
  apply (@lookup_agrees_with_listing [a1; a2] scenario).
  - reflexivity.
  - simpl. intros [H|[H|[]]]; discriminate H.
Defined.

Lemma filter_approved_stored pss :
  filter approved (map (fun ps => as_written (prepared ps)) pss) = [].
Proof.
  induction pss as [|ps rest IH]; [reflexivity|].
  cbn [map filter]. now rewrite (proj2 (stored_record_unapproved ps)).
Qed.

Lemma no_null_stored pss :
  ~ In JNull (map (fun ps => as_written (prepared ps)) pss).
Proof.
  intros Hin. apply in_map_iff in Hin. destruct Hin as (ps & Hps & _).
  discriminate Hps.
Qed.

(** Valid submissions served in turn on a world where reads and writes go
    through. *)
Lemma submit_each_valid pss : forall w,
  Forall (fun ps => truthy (own "name" ps) = true) pss ->
  writable w = true ->
  agents_json w <> Unreadable ->
  (forall raw, agents_json w <> Stored (Unparsable raw)) ->
  exists w',
    submit_each (map (fun ps => Some (JObj ps)) pss) w
    = (map (fun ps => Return (created (prepared ps))) pss, w')
    /\ (pss = [] -> w' = w)
    /\ (pss <> [] ->
        agents_json w'
        = Stored (Document
                    (JArr (map as_written (loaded (agents_json w))
                             ++ map (fun ps => as_written (prepared ps)) pss)))).
Proof.
  induction pss as [|ps rest IH]; intros w Hall Hw Hr Hp.
  - exists w. repeat split. congruence.
  - inversion Hall as [|? ? Hname Hrest]; subst.
    cbn [map submit_each]. rewrite (@submit_valid_ok ps w Hname Hw Hr Hp).
    match goal with
    | |- context [submit_each _ ?w0] => set (w1 := w0)
    end.
    destruct (IH w1 Hrest eq_refl) as (w' & Hrun & Hnil & Hf);
      [discriminate | discriminate |].
    exists w'. rewrite Hrun. split; [reflexivity|]. split; [discriminate|].
    intros _. destruct rest as [|ps' rest'].
    + rewrite (Hnil eq_refl). reflexivity.
    + rewrite Hf by discriminate. subst w1. cbn [agents_json loaded].
      rewrite map_app, map_as_written_twice. cbn [map].
      now rewrite as_written_twice, <- app_assoc.
Qed.

(** X12. Valid submissions served one after the other, on a file that can
    be read (or is missing) and written, are all answered 201 in turn, and
    the file ends holding what it held, as written, followed by their
    records as written, in the order they were submitted. The listing then
    shows none of the new ones: when none of the elements held before is
    written as [null], it shows the approved ones among them, as written. *)
Theorem submissions_accumulate_in_order pss w :
  Forall (fun ps => truthy (own "name" ps) = true) pss ->
  writable w = true ->
  agents_json w <> Unreadable ->
  (forall raw, agents_json w <> Stored (Unparsable raw)) ->
  pss <> [] ->
  exists w',
    submit_each (map (fun ps => Some (JObj ps)) pss) w
    = (map (fun ps => Return (created (prepared ps))) pss, w')
    /\ agents_json w'
       = Stored (Document
                   (JArr (map as_written (loaded (agents_json w))
                            ++ map (fun ps => as_written (prepared ps)) pss)))
    /\ (~ In JNull (map as_written (loaded (agents_json w))) ->
        fst (get_api_agents w')
        = Return (res_json
                    (JArr (map as_written
                             (filter approved (loaded (agents_json w))))))).
Proof.
  intros Hall Hw Hr Hp Hne.
  destruct (submit_each_valid w Hall Hw Hr Hp) as (w' & Hrun & _ & Hf).
  specialize (Hf Hne).
  exists w'. split; [exact Hrun|]. split; [exact Hf|].
  intros Hnn. rewrite (list_on_array w' Hf).
  - cbn [fst]. rewrite filter_app, filter_approved_stored, app_nil_r.
    now rewrite filter_as_written.
  - intros Hin. apply in_app_or in Hin. destruct Hin as [Hin|Hin].
    + contradiction.
    + now apply no_null_stored in Hin.
Qed.

Lemma submissions_accumulate_in_order_witness :
  exists w',
    submit_each
      (map (fun ps => Some (JObj ps)) [[("name", JStr "Baz")]; overflowing])
      (on_disk (Stored (Document (JArr [a5]))))
    = (map (fun ps => Return (created (prepared ps)))
           [[("name", JStr "Baz")]; overflowing], w')
    /\ agents_json w'
       = Stored (Document
                   (JArr [JObj [("id", JStr "a5"); ("score", JNull);
                                ("approved", JBool true)];
                          JObj [("name", JStr "Baz"); ("approved", JBool false)];
                          JObj [("name", JNull); ("approved", JBool false)]]))
    /\ fst (get_api_agents w')
       = Return (res_json
                   (JArr [JObj [("id", JStr "a5"); ("score", JNull);
                                ("approved", JBool true)]])).
Proof.
  destruct (@submissions_accumulate_in_order
              [[("name", JStr "Baz")]; overflowing]
              (on_disk (Stored (Document (JArr [a5])))))
    as (w' & Hrun & Hf & Hl).
  - repeat constructor.
  - reflexivity.
  - discriminate.
  - discriminate.
  - discriminate.
  - exists w'. split; [exact Hrun|]. split; [exact Hf|].
    apply Hl. simpl. intros [H|[]]. discriminate H.
Defined.




(** X14. A valid submission on a missing file, or on a file whose JSON is
    not an array, starts the store afresh: it is answered 201, the file
    then holds the one new record, as written, and nothing of what it held,
    the listing stays empty, and every lookup, which answered 404 'Agent
    not found' or 500 before, now answers 404 'Agent not found or not
    approved'. *)
Theorem first_submission_starts_the_store ps w :
  truthy (own "name" ps) = true ->
  writable w = true ->
  agents_json w = Absent
  \/ (exists v, agents_json w = Stored (Document v) /\ Array_isArray v = false) ->
  exists w',
    post_api_submit_agent (Some (JObj ps)) w = (Return (created (prepared ps)), w')
    /\ agents_json w' = Stored (Document (JArr [as_written (prepared ps)]))
    /\ fst (get_api_agents w) = Return (res_json (JArr []))
    /\ fst (get_api_agents w') = Return (res_json (JArr []))
    /\ forall i,
         fst (get_api_agents_id i w') = Return not_found
         /\ (fst (get_api_agents_id i w)
             = Return (res_status_json 404 (msg "Agent not found"))
             \/ fst (get_api_agents_id i w)
                = Return (res_status_json 500 (msg "Error reading agent data."))).
Proof.
  intros Hname Hw Hd.
  assert (Hl : loaded (agents_json w) = []).
  { destruct Hd as [->|(v & -> & Hv)]; [reflexivity|].
    destruct v; try reflexivity. discriminate Hv. }
  assert (Hr : agents_json w <> Unreadable)
    by (destruct Hd as [->|(v & -> & _)]; discriminate).
  assert (Hp : forall raw, agents_json w <> Stored (Unparsable raw))
    by (intros raw; destruct Hd as [->|(v & -> & _)]; discriminate).
  rewrite (@submit_valid_ok ps w Hname Hw Hr Hp), Hl. cbn [map app].
  eexists. split; [reflexivity|]. split; [reflexivity|].
  assert (Hnn : ~ In JNull [as_written (prepared ps)])
    by (intros [H|[]]; discriminate H).
  assert (Hflt : filter approved [as_written (prepared ps)] = []).
  { cbn [filter]. now rewrite (proj2 (stored_record_unapproved ps)). }
  assert (Hfind : forall i,
             find (fun r => has_id i r && approved r) [as_written (prepared ps)]
             = None).
  { intros i. cbn [find].
    now rewrite (proj2 (stored_record_unapproved ps)), andb_false_r. }
  split; [|split].
  - destruct Hd as [E|(v & E & Hv)]; run_handler get_api_agents E;
      [reflexivity | now rewrite Hv].
  - erewrite list_on_array; [|reflexivity|exact Hnn].
    now rewrite Hflt.
  - intros i. split.
    + erewrite get_on_array; [|reflexivity|exact Hnn].
      now rewrite Hfind.
    + destruct Hd as [E|(v & E & Hv)]; run_handler get_api_agents_id E;
        [now left | rewrite Hv; now right].
Qed.

Lemma first_submission_starts_the_store_witness :
  exists w',
    post_api_submit_agent (Some (JObj [("name", JStr "Baz")])) not_an_array
    = (Return (created (prepared [("name", JStr "Baz")])), w')
    /\ agents_json w'
       = Stored (Document
                   (JArr [JObj [("name", JStr "Baz"); ("approved", JBool false)]]))
    /\ fst (get_api_agents not_an_array) = Return (res_json (JArr []))
    /\ fst (get_api_agents w') = Return (res_json (JArr []))
    /\ forall i,
         fst (get_api_agents_id i w') = Return not_found
         /\ (fst (get_api_agents_id i not_an_array)
             = Return (res_status_json 404 (msg "Agent not found"))
             \/ fst (get_api_agents_id i not_an_array)
                = Return (res_status_json 500 (msg "Error reading agent data."))).
Proof.
  apply (@first_submission_starts_the_store [("name", JStr "Baz")] not_an_array).
  - reflexivity.
  - reflexivity.
  - right. eexists. split; reflexivity.
Defined.
